(** * Product catalog: the product service, the product form and the product list

    A shallow embedding of the TypeScript sources
      - services/productService.ts   (createProduct, getProducts, updateProduct,
                                      deleteProduct, getProductById),
      - components/products/ProductForm.tsx  (checkFormValidity, handleSubmit),
      - components/products/ProductList.tsx  (refreshProductList, handleFilter,
                                      applyFilters, handleProductRemoval),
    together with a model of the two collaborators the sources rely on: the
    JavaScript primitives they call ([trim], [Number], truthiness) and the
    query-builder client of the backend data service.

    Conventions.
      - A JavaScript string is a Rocq [string]; every character stands for one
        code unit below 256.
      - A JavaScript number is a [number]: NaN, the two infinities, or a finite
        value kept as a rational; [Number] rounds the text it reads to the
        nearest double.
      - A timestamp is an integer count of milliseconds; the ISO text produced
        by [toISOString] orders the same way.
      - An awaited call that may throw returns a [result]. *)

From Stdlib Require Import Bool List String Ascii ZArith QArith Lia DecimalString.
From Stdlib Require Import Permutation Sorting.Sorted.
Import ListNotations.

Local Open Scope string_scope.
Local Open Scope Z_scope.

(** ** Results of calls that may throw *)

Inductive result (A : Type) : Type :=
| Ok (a : A)
| Err (message : string).
Arguments Ok {A} a.
Arguments Err {A} message.

Definition bind {A B : Type} (r : result A) (k : A -> result B) : result B :=
  match r with
  | Ok a => k a
  | Err m => Err m
  end.

Notation "'let*' x ':=' r 'in' k" := (bind r (fun x => k))
  (at level 10, x name, r at level 100, k at level 200, only parsing).

(** ** JavaScript primitives used by the sources *)

Module JS.

Definition chars := list ascii.

Definition code (c : ascii) : N := N_of_ascii c.

(** WhiteSpace and LineTerminator code units below 256: TAB, LF, VT, FF, CR,
    SPACE and NO-BREAK SPACE. *)
Definition is_space (c : ascii) : bool :=
  let n := code c in
  ((9 <=? n) && (n <=? 13) || (n =? 32) || (n =? 160))%N.

Fixpoint drop_space (l : chars) : chars :=
  match l with
  | [] => []
  | c :: l' => if is_space c then drop_space l' else l
  end.

Definition trim_chars (l : chars) : chars :=
  rev (drop_space (rev (drop_space l))).

(** [String.prototype.trim]. *)
Definition trim (s : string) : string :=
  string_of_list_ascii (trim_chars (list_ascii_of_string s)).

(** Truthiness of a string: only the empty string is falsy. *)
Definition truthy (s : string) : bool :=
  match s with
  | EmptyString => false
  | String _ _ => true
  end.

(** *** Numbers *)

Inductive number : Type :=
| NaN
| Fin (q : Q)
| PosInf
| NegInf.

Definition isNaN (x : number) : bool :=
  match x with
  | NaN => true
  | _ => false
  end.

(** [x < y] *)
Definition lt (x y : number) : bool :=
  match x, y with
  | NaN, _ | _, NaN => false
  | Fin a, Fin b => negb (Qle_bool b a)
  | Fin _, PosInf => true
  | NegInf, Fin _ => true
  | NegInf, PosInf => true
  | _, _ => false
  end.

(** [x <= y] *)
Definition le (x y : number) : bool :=
  match x, y with
  | NaN, _ | _, NaN => false
  | Fin a, Fin b => Qle_bool a b
  | NegInf, _ => true
  | _, PosInf => true
  | _, _ => false
  end.

(** [x > y] and [x >= y] are [y < x] and [y <= x]. *)
Definition gt (x y : number) : bool := lt y x.
Definition ge (x y : number) : bool := le y x.

Definition neg (x : number) : number :=
  match x with
  | NaN => NaN
  | Fin q => Fin (- q)
  | PosInf => NegInf
  | NegInf => PosInf
  end.

(** Truthiness of a number: 0 and NaN are falsy. *)
Definition truthy_num (x : number) : bool :=
  match x with
  | NaN => false
  | Fin q => negb (Qeq_bool q 0)
  | _ => true
  end.

(** *** [Number(text)]: the StringNumericLiteral grammar *)

Definition digit_of (base : N) (c : ascii) : option Z :=
  let n := code c in
  let v :=
    if ((48 <=? n) && (n <=? 57))%N then Some (n - 48)%N
    else if ((97 <=? n) && (n <=? 102))%N then Some (n - 87)%N
    else if ((65 <=? n) && (n <=? 70))%N then Some (n - 55)%N
    else None in
  match v with
  | Some d => if (d <? base)%N then Some (Z.of_N d) else None
  | None => None
  end.

(** The longest prefix of digits of [l] in [base]: its digits, most
    significant first, and what follows. *)
Fixpoint span_digits (base : N) (l : chars) : list Z * chars :=
  match l with
  | [] => ([], [])
  | c :: l' =>
      match digit_of base c with
      | Some d => let (ds, rest) := span_digits base l' in (d :: ds, rest)
      | None => ([], l)
      end
  end.

Definition digits_value (base : N) (ds : list Z) : Z :=
  fold_left (fun acc d => acc * Z.of_N base + d) ds 0.

(** The double nearest to [n / d], for [0 <= n] and [0 < d]: 53 significant
    bits, exponents down to that of the smallest subnormal, ties going to the
    even significand; [PosInf] from [2 ^ 1024] on.  The double is kept as the
    rational it is. *)
Definition round_double (n d : Z) : number :=
  if n =? 0 then Fin 0
  else
    let e0 := Z.log2 n - Z.log2 d - 52 in
    let q0 := if 0 <=? e0 then n / (d * 2 ^ e0) else (n * 2 ^ (- e0)) / d in
    let k1 :=
      if 2 ^ 53 <=? q0 then e0 + 1
      else if q0 <? 2 ^ 52 then e0 - 1
      else e0 in
    let k := Z.max k1 (-1074) in
    let num := if 0 <=? k then n else n * 2 ^ (- k) in
    let den := if 0 <=? k then d * 2 ^ k else d in
    let q := num / den in
    let r := num mod den in
    let s :=
      if den <? 2 * r then q + 1
      else if den =? 2 * r then (if Z.even q then q else q + 1)
      else q in
    if 0 <=? k then
      if 2 ^ 1024 <=? s * 2 ^ k then PosInf else Fin (inject_Z (s * 2 ^ k))
    else Fin (Qred (Qmake s (Z.to_pos (2 ^ (- k))))).

(** The double read from [m * 10 ^ e], for [0 <= m]. *)
Definition decimal (m e : Z) : number :=
  if 0 <=? e then round_double (m * 10 ^ e) 1
  else round_double m (10 ^ (- e)).

(** ExponentPart, when present: [e] or [E], an optional sign, digits. *)
Definition parse_exponent (l : chars) : option Z :=
  match l with
  | [] => Some 0
  | c :: l' =>
      if (code c =? 101)%N || (code c =? 69)%N then
        let '(sign, l'') :=
          match l' with
          | s :: t =>
              if (code s =? 45)%N then (-1, t)
              else if (code s =? 43)%N then (1, t)
              else (1, l')
          | [] => (1, l')
          end in
        match span_digits 10 l'' with
        | (d :: ds, []) => Some (sign * digits_value 10 (d :: ds))
        | _ => None
        end
      else None
  end.

(** StrUnsignedDecimalLiteral: [Infinity], [ddd.ddd], [ddd.], [.ddd], [ddd],
    the last four with an optional exponent. *)
Definition parse_unsigned (l : chars) : number :=
  if list_eq_dec ascii_dec l (list_ascii_of_string "Infinity") then PosInf
  else
    let (ip, r1) := span_digits 10 l in
    let '(fp, r2) :=
      match r1 with
      | c :: t => if (code c =? 46)%N then span_digits 10 t else ([], r1)
      | [] => ([], r1)
      end in
    match ip, fp with
    | [], [] => NaN
    | _, _ =>
        match parse_exponent r2 with
        | Some e =>
            decimal (digits_value 10 (ip ++ fp)%list) (e - Z.of_nat (List.length fp))
        | None => NaN
        end
    end.

(** NonDecimalIntegerLiteral: [0x], [0o] or [0b] and digits, unsigned. *)
Definition parse_radix (l : chars) : option number :=
  match l with
  | z :: p :: t =>
      if (code z =? 48)%N then
        let base :=
          if (code p =? 120)%N || (code p =? 88)%N then Some 16%N
          else if (code p =? 111)%N || (code p =? 79)%N then Some 8%N
          else if (code p =? 98)%N || (code p =? 66)%N then Some 2%N
          else None in
        match base with
        | Some b =>
            match span_digits b t with
            | (d :: ds, []) => Some (round_double (digits_value b (d :: ds)) 1)
            | _ => Some NaN
            end
        | None => None
        end
      else None
  | _ => None
  end.

(** [Number(s)] for a string [s]: white space is stripped, the empty string
    is 0, anything outside the grammar is NaN, and the value read is rounded
    to a double.  Negative zero is kept as 0, which compares and serialises
    the same. *)
Definition Number (s : string) : number :=
  match trim_chars (list_ascii_of_string s) with
  | [] => Fin 0
  | c :: t =>
      match parse_radix (c :: t) with
      | Some x => x
      | None =>
          if (code c =? 45)%N then neg (parse_unsigned t)
          else if (code c =? 43)%N then parse_unsigned t
          else parse_unsigned (c :: t)
      end
  end.

End JS.

(** ** The backend data service *)

(** Modelled from the spec: the client [supabase] exported by lib/supabase is
    not among the sources.  Section 6 of the specification lists the builder
    calls it offers ([select], [insert], [update], [delete], [eq], [gte],
    [lte], [ilike], [or], ordering); the modules below fix their meaning on a
    table held as a list of rows in storage order. *)

Module Product.
(** Modelled from the spec: the type [Product] of lib/supabase, which is not
    among the sources; its fields are those of section 3 of the
    specification. *)
Record t : Type := mk {
  id : string;
  name : string;
  description : string;
  category : string;
  price : JS.number;
  rating : JS.number;
  created_at : Z
}.
End Product.
Abbreviation Product := Product.t.

Module Row.
(** An object sent with [insert] or [update]: any subset of the columns. *)
Record t : Type := mk {
  id : option string;
  name : option string;
  description : option string;
  category : option string;
  price : option JS.number;
  rating : option JS.number;
  created_at : option Z
}.
End Row.

Module Backend.
Import JS.

Record DB : Type := mkDB {
  products : list Product;   (* table [products], in storage order *)
  next_id : nat;             (* source of generated identifiers *)
  server_time : Z            (* the server's clock *)
}.

(** The filters a query accumulates. *)
Inductive Filter : Type :=
| q_eq (column value : string)
| q_gte (column : string) (value : number)
| q_lte (column : string) (value : number)
| q_or (filters : string).

Record Query : Type := mkQuery {
  table : string;
  conds : list Filter;               (* in the order they were added *)
  order : option (string * bool)     (* column, ascending *)
}.

Definition select_from (tbl : string) : Query := mkQuery tbl [] None.
Definition add (f : Filter) (q : Query) : Query :=
  mkQuery (table q) (conds q ++ [f])%list (order q).
Definition order_by (column : string) (ascending : bool) (q : Query) : Query :=
  mkQuery (table q) (conds q) (Some (column, ascending)).

(** *** Columns *)

Definition text_column (column : string) : option (Product -> string) :=
  if (column =? "id")%string then Some Product.id
  else if (column =? "name")%string then Some Product.name
  else if (column =? "description")%string then Some Product.description
  else if (column =? "category")%string then Some Product.category
  else None.

Definition numeric_column (column : string) : option (Product -> number) :=
  if (column =? "price")%string then Some Product.price
  else if (column =? "rating")%string then Some Product.rating
  else None.

(** *** Pattern matching: [ilike] *)

(** Letter case is folded for the letters A to Z. *)
Definition lower (c : ascii) : ascii :=
  let n := code c in
  if ((65 <=? n) && (n <=? 90))%N then ascii_of_N (n + 32) else c.

Definition percent : ascii := "%".
Definition underscore : ascii := "_".
Definition backslash : ascii := "\".
Definition star : ascii := "*".
Definition comma : ascii := ",".
Definition dot : ascii := ".".
Definition lparen : ascii := "(".
Definition rparen : ascii := ")".
Definition colon : ascii := ":".
Definition dquote : ascii := ascii_of_N 34.

(** [like p s]: the text [s] matches the pattern [p], letter case ignored.
    [%] stands for any run of characters, [_] for any one character, and a
    backslash makes the next pattern character literal. *)
Fixpoint like (p s : chars) {struct p} : bool :=
  match p with
  | [] => match s with [] => true | _ :: _ => false end
  | c :: p' =>
      if (c =? percent)%char then
        (fix any (s : chars) : bool :=
           like p' s || match s with [] => false | _ :: s' => any s' end) s
      else if (c =? underscore)%char then
        match s with [] => false | _ :: s' => like p' s' end
      else if (c =? backslash)%char then
        match p' with
        | [] => false
        | e :: p'' =>
            match s with
            | [] => false
            | x :: s' => (lower e =? lower x)%char && like p'' s'
            end
        end
      else
        match s with
        | [] => false
        | x :: s' => (lower c =? lower x)%char && like p' s'
        end
  end.

(** A pattern must not end in an unfinished escape. *)
Fixpoint pattern_ok (p : chars) : bool :=
  match p with
  | [] => true
  | c :: p' =>
      if (c =? backslash)%char then
        match p' with [] => false | _ :: p'' => pattern_ok p'' end
      else pattern_ok p'
  end.

(** *** The text given to [or]: conditions [column.operator.value] separated
    by commas.  Only the operator the service uses, [ilike], is modelled, in
    whose value [*] is another spelling of [%]; quoted values and nested
    groups are not modelled, a value with a parenthesis or a double quote is
    refused. *)

Fixpoint split_on (sep : ascii) (l : chars) : list chars :=
  match l with
  | [] => [[]]
  | c :: l' =>
      if (c =? sep)%char then [] :: split_on sep l'
      else
        match split_on sep l' with
        | w :: ws => (c :: w) :: ws
        | [] => [[c]]
        end
  end.

(** [l] cut at its first [sep]. *)
Fixpoint break_at (sep : ascii) (l : chars) : option (chars * chars) :=
  match l with
  | [] => None
  | c :: l' =>
      if (c =? sep)%char then Some ([], l')
      else
        match break_at sep l' with
        | Some (a, b) => Some (c :: a, b)
        | None => None
        end
  end.

Definition quoting (c : ascii) : bool :=
  (c =? lparen)%char || (c =? rparen)%char || (c =? dquote)%char.

Definition ilike_pattern (value : chars) : chars :=
  map (fun c => if (c =? star)%char then percent else c) value.

Definition syntax_error : string := "failed to parse logic tree".
Definition no_column : string := "column does not exist".

Definition compile_condition (l : chars) : result (Product -> bool) :=
  match break_at dot l with
  | None => Err syntax_error
  | Some (column, rest) =>
      match break_at dot rest with
      | None => Err syntax_error
      | Some (operator, value) =>
          if negb (string_of_list_ascii operator =? "ilike")%string
          then Err syntax_error
          else if existsb quoting value then Err syntax_error
          else if negb (pattern_ok (ilike_pattern value))
          then Err "LIKE pattern must not end with escape character"
          else
            match text_column (string_of_list_ascii column) with
            | None => Err no_column
            | Some get =>
                Ok (fun r =>
                      like (ilike_pattern value) (list_ascii_of_string (get r)))
            end
      end
  end.

Fixpoint compile_any (cs : list chars) : result (Product -> bool) :=
  match cs with
  | [] => Ok (fun _ => false)
  | c :: cs' =>
      let* f := compile_condition c in
      let* g := compile_any cs' in
      Ok (fun r => f r || g r)
  end.

Definition compile (f : Filter) : result (Product -> bool) :=
  match f with
  | q_eq column value =>
      match text_column column with
      | Some get => Ok (fun r => (get r =? value)%string)
      | None => Err no_column
      end
  | q_gte column value =>
      match numeric_column column with
      | Some get => Ok (fun r => ge (get r) value)
      | None => Err no_column
      end
  | q_lte column value =>
      match numeric_column column with
      | Some get => Ok (fun r => le (get r) value)
      | None => Err no_column
      end
  | q_or filters => compile_any (split_on comma (list_ascii_of_string filters))
  end.

(** The filters of a query hold together. *)
Fixpoint compile_all (fs : list Filter) : result (Product -> bool) :=
  match fs with
  | [] => Ok (fun _ => true)
  | f :: fs' =>
      let* c := compile f in
      let* cs := compile_all fs' in
      Ok (fun r => c r && cs r)
  end.

(** *** Ordering: a stable sort on [created_at].  Rows of one date keep their
    storage order, which is one of the orders the backend may give them. *)

Definition before (ascending : bool) (a b : Product) : bool :=
  if ascending then Product.created_at a <=? Product.created_at b
  else Product.created_at b <=? Product.created_at a.

Fixpoint place (ascending : bool) (r : Product) (l : list Product) : list Product :=
  match l with
  | [] => [r]
  | x :: l' =>
      if before ascending r x then r :: l else x :: place ascending r l'
  end.

Definition sort_rows (ascending : bool) (l : list Product) : list Product :=
  fold_right (place ascending) [] l.

Definition no_table : string := "relation does not exist".

(** [await query]: the rows of the table that pass every filter, ordered as
    asked. *)
Definition run_select (db : DB) (q : Query) : result (list Product) :=
  if negb (table q =? "products")%string then Err no_table
  else
    let* keep := compile_all (conds q) in
    let rows := filter keep (products db) in
    match order q with
    | None => Ok rows
    | Some (column, ascending) =>
        if (column =? "created_at")%string then Ok (sort_rows ascending rows)
        else Err no_column
    end.

(** [.single()]: exactly one row is expected. *)
Definition single (rows : list Product) : result Product :=
  match rows with
  | [r] => Ok r
  | _ => Err "JSON object requested, multiple (or no) rows returned"
  end.

Definition gen_id (n : nat) : string :=
  NilZero.string_of_uint (Nat.to_uint n).

Definition null_column : string := "null value in column violates not-null constraint".

(** [insert([row]).select()]: columns the row leaves out are filled by the
    backend where it can (a generated [id], the server's time for
    [created_at]); the stored row is appended and returned. *)
Definition run_insert (db : DB) (tbl : string) (r : Row.t)
  : result (DB * list Product) :=
  if negb (tbl =? "products")%string then Err no_table
  else
    match Row.name r, Row.description r, Row.category r, Row.price r, Row.rating r with
    | Some n, Some d, Some c, Some p, Some g =>
        let generated := match Row.id r with None => true | Some _ => false end in
        let i := match Row.id r with Some i => i | None => gen_id (next_id db) end in
        let t := match Row.created_at r with Some t => t | None => server_time db end in
        if existsb (fun x => (Product.id x =? i)%string) (products db)
        then Err "duplicate key value violates unique constraint"
        else
          let stored := Product.mk i n d c p g t in
          Ok (mkDB (products db ++ [stored])%list
                   (if generated then S (next_id db) else next_id db)
                   (server_time db),
              [stored])
    | _, _, _, _, _ => Err null_column
    end.

Definition patch (u : Row.t) (r : Product) : Product :=
  let pick {A : Type} (o : option A) (old : A) : A :=
    match o with Some v => v | None => old end in
  Product.mk
    (pick (Row.id u) (Product.id r))
    (pick (Row.name u) (Product.name r))
    (pick (Row.description u) (Product.description r))
    (pick (Row.category u) (Product.category r))
    (pick (Row.price u) (Product.price r))
    (pick (Row.rating u) (Product.rating r))
    (pick (Row.created_at u) (Product.created_at r)).

(** An update that sets [id] must not give two rows the same identifier:
    the new identifier is that of no row left as it is, and one row at most
    takes it. *)
Definition clash (u : Row.t) (hit : Product -> bool) (rows : list Product) : bool :=
  match Row.id u with
  | None => false
  | Some j =>
      existsb (fun r => negb (hit r) && (Product.id r =? j)%string) rows
      || (1 <? List.length (filter hit rows))%nat
  end.

(** [update(u) ... .select()]: every row passing the filters is patched in
    place; the patched rows are returned. *)
Definition run_update (db : DB) (q : Query) (u : Row.t)
  : result (DB * list Product) :=
  if negb (table q =? "products")%string then Err no_table
  else
    let* hit := compile_all (conds q) in
    if clash u hit (products db)
    then Err "duplicate key value violates unique constraint"
    else
      Ok (mkDB (map (fun r => if hit r then patch u r else r) (products db))
               (next_id db) (server_time db),
          map (patch u) (filter hit (products db))).

(** [delete() ...]: every row passing the filters is removed. *)
Definition run_delete (db : DB) (q : Query) : result DB :=
  if negb (table q =? "products")%string then Err no_table
  else
    let* hit := compile_all (conds q) in
    Ok (mkDB (filter (fun r => negb (hit r)) (products db))
             (next_id db) (server_time db)).

End Backend.

(** ** services/productService.ts *)

Module ProductFilter.
(** Every field is optional; [None] is an absent (or [undefined]) field. *)
Record t : Type := mk {
  category : option string;
  minPrice : option JS.number;
  maxPrice : option JS.number;
  minRating : option JS.number;
  searchQuery : option string
}.
Definition empty : t := mk None None None None None.
End ProductFilter.
Abbreviation ProductFilter := ProductFilter.t.

Module Draft.
(** [Omit<Product, 'id' | 'created_at'>] *)
Record t : Type := mk {
  name : string;
  description : string;
  category : string;
  price : JS.number;
  rating : JS.number
}.
End Draft.

Module Updates.
(** [Partial<Omit<Product, 'id' | 'created_at'>>] *)
Record t : Type := mk {
  name : option string;
  description : option string;
  category : option string;
  price : option JS.number;
  rating : option JS.number
}.
End Updates.

Module Handed.
(** The object [createProduct] is handed when it runs.  Its declared type,
    [Draft.t], names neither [id] nor [created_at], but keeps no object out
    for having them (a whole [Product] has the type): the object has the five
    declared fields and carries, or not, those two keys besides. *)
Record t : Type := mk {
  fields : Draft.t;
  id : option string;
  created_at : option Z
}.
(** An object with the declared fields and nothing else. *)
Definition declared (d : Draft.t) : t := mk d None None.
End Handed.
Coercion Handed.declared : Draft.t >-> Handed.t.

Module HandedUpdates.
(** The same for the object [updateProduct] is handed, of declared type
    [Updates.t]. *)
Record t : Type := mk {
  fields : Updates.t;
  id : option string;
  created_at : option Z
}.
Definition declared (u : Updates.t) : t := mk u None None.
End HandedUpdates.
Coercion HandedUpdates.declared : Updates.t >-> HandedUpdates.t.

Module productService.
Import Backend.

(** [if (error) throw new Error(prefix + error.message)] *)
Definition throw_as {A : Type} (prefix : string) (r : result A) : result A :=
  match r with
  | Ok a => Ok a
  | Err m => Err (prefix ++ m)
  end.

(** The object [{ ...product, created_at: new Date().toISOString() }], [now]
    being the reading of the caller's clock: every key of [product] is
    copied, an [id] it carries included, and [created_at] is then set,
    replacing the one [product] may carry. *)
Definition insert_payload (now : Z) (product : Handed.t) : Row.t :=
  Row.mk (Handed.id product)
         (Some (Draft.name (Handed.fields product)))
         (Some (Draft.description (Handed.fields product)))
         (Some (Draft.category (Handed.fields product)))
         (Some (Draft.price (Handed.fields product)))
         (Some (Draft.rating (Handed.fields product)))
         (Some now).

Definition createProduct (now : Z) (db : DB) (product : Handed.t)
  : result (DB * Product) :=
  throw_as "Failed to create product: "
    (let* res := run_insert db "products" (insert_payload now product) in
     let* data := single (snd res) in
     Ok (fst res, data)).

(** The text handed to [or] for a search. *)
Definition search_filter (searchQuery : string) : string :=
  "name.ilike.%" ++ searchQuery ++ "%,description.ilike.%" ++ searchQuery ++ "%".

(** The query [getProducts] builds before awaiting it. *)
Definition getProducts_query (filters : option ProductFilter) : Query :=
  let query := select_from "products" in
  let query :=
    match filters with
    | None => query
    | Some filters =>
        let query :=
          match ProductFilter.category filters with
          | Some c => if JS.truthy c then add (q_eq "category" c) query else query
          | None => query
          end in
        let query :=
          match ProductFilter.minPrice filters with
          | Some v => add (q_gte "price" v) query
          | None => query
          end in
        let query :=
          match ProductFilter.maxPrice filters with
          | Some v => add (q_lte "price" v) query
          | None => query
          end in
        let query :=
          match ProductFilter.minRating filters with
          | Some v => add (q_gte "rating" v) query
          | None => query
          end in
        match ProductFilter.searchQuery filters with
        | Some s => if JS.truthy s then add (q_or (search_filter s)) query else query
        | None => query
        end
    end in
  order_by "created_at" false query.

Definition getProducts (db : DB) (filters : option ProductFilter)
  : result (list Product) :=
  throw_as "Couldn't fetch products: " (run_select db (getProducts_query filters)).

(** [updates] goes to [update] as it is, with every key it has. *)
Definition update_payload (updates : HandedUpdates.t) : Row.t :=
  Row.mk (HandedUpdates.id updates)
         (Updates.name (HandedUpdates.fields updates))
         (Updates.description (HandedUpdates.fields updates))
         (Updates.category (HandedUpdates.fields updates))
         (Updates.price (HandedUpdates.fields updates))
         (Updates.rating (HandedUpdates.fields updates))
         (HandedUpdates.created_at updates).

Definition updateProduct (db : DB) (id : string) (updates : HandedUpdates.t)
  : result (DB * Product) :=
  throw_as ("Couldn't update product " ++ id ++ ": ")
    (let* res := run_update db (add (q_eq "id" id) (select_from "products"))
                            (update_payload updates) in
     let* data := single (snd res) in
     Ok (fst res, data)).

Definition deleteProduct (db : DB) (id : string) : result DB :=
  throw_as ("Failed to delete product " ++ id ++ ": ")
    (run_delete db (add (q_eq "id" id) (select_from "products"))).

Definition getProductById (db : DB) (id : string) : result Product :=
  throw_as ("Product " ++ id ++ " not found: ")
    (let* rows := run_select db (add (q_eq "id" id) (select_from "products")) in
     single rows).

End productService.

(** The calls made on the product service, as a component issues them. *)
Inductive Call : Type :=
| call_createProduct (product : Draft.t)
| call_getProducts (filters : option ProductFilter)
| call_updateProduct (id : string) (updates : Updates.t)
| call_deleteProduct (id : string).

(** ** components/products/ProductForm.tsx *)

Module ProductForm.
Import JS.

(** The state [productDetails]: every field is the text of its control. *)
Record Details : Type := mkDetails {
  name : string;
  description : string;
  category : string;
  price : string;
  rating : string
}.

Module formRules.
Definition price_min : number := Fin 0.
Definition price_message : string := "C'mon, price can't be negative!".
Definition rating_min : number := Fin 0.
Definition rating_max : number := Fin (inject_Z 5).
Definition rating_message : string := "Let's stick to a rating between 0 and 5 stars".
End formRules.

Definition name_message : string := "Hey, we need a name for this product!".
Definition description_message : string := "Mind adding a quick description?".
Definition category_message : string := "Please pick a category for this item".

(** [null] is [None]. *)
Definition checkFormValidity (productDetails : Details) : option string :=
  let trimmedName := trim (name productDetails) in
  if negb (truthy trimmedName) then Some name_message
  else if negb (truthy (trim (description productDetails))) then
    Some description_message
  else if negb (truthy (category productDetails)) then Some category_message
  else
    let priceValue := Number (price productDetails) in
    if isNaN priceValue || lt priceValue formRules.price_min then
      Some formRules.price_message
    else
      let ratingValue := Number (rating productDetails) in
      if isNaN ratingValue
         || lt ratingValue formRules.rating_min
         || gt ratingValue formRules.rating_max
      then Some formRules.rating_message
      else None.

(** The object [updatedProduct] built on submission. *)
Definition updatedProduct (productDetails : Details) : Draft.t :=
  Draft.mk (name productDetails) (description productDetails)
           (category productDetails)
           (Number (price productDetails)) (Number (rating productDetails)).

Definition as_updates (d : Draft.t) : Updates.t :=
  Updates.mk (Some (Draft.name d)) (Some (Draft.description d))
             (Some (Draft.category d)) (Some (Draft.price d))
             (Some (Draft.rating d)).

(** What one run of [handleSubmit] leaves behind. *)
Record Submission : Type := mkSubmission {
  validationError : option string;   (* the form's message, if any *)
  calls : list Call;                 (* service calls issued, in order *)
  db_after : Backend.DB;
  stored : option Product;           (* the record the service returned *)
  succeeded : bool                   (* [onSuccess()] and [onClose()] ran *)
}.

(** [product] is the component's prop: the product being edited, if any. *)
Definition handleSubmit (now : Z) (db : Backend.DB) (product : option Product)
  (productDetails : Details) : Submission :=
  match checkFormValidity productDetails with
  | Some errorMsg => mkSubmission (Some errorMsg) [] db None false
  | None =>
      let updated := updatedProduct productDetails in
      let editing :=
        match product with
        | Some p => if truthy (Product.id p) then Some (Product.id p) else None
        | None => None
        end in
      let call :=
        match editing with
        | Some i => call_updateProduct i (as_updates updated)
        | None => call_createProduct updated
        end in
      let outcome :=
        match editing with
        | Some i => productService.updateProduct db i (as_updates updated)
        | None => productService.createProduct now db updated
        end in
      match outcome with
      | Ok (db', r) => mkSubmission None [call] db' (Some r) true
      | Err m => mkSubmission (Some m) [call] db None false
      end
  end.

End ProductForm.

(** ** components/products/ProductList.tsx

    The component's state hooks, the backend and the log of service calls form
    one state; every handler is a function on it.  An awaited service call is
    taken in one step with its continuation.

    React keeps a state value by identity: a setter given the very object
    already held changes nothing, and an effect or a memoised callback is
    renewed only when one of its dependencies is a different object.  The two
    filter objects therefore carry the address of the object they are. *)

Module FilterPatch.
(** [Partial<ProductFilter>] as handed to [handleFilter]: for each key, [None]
    when the key is missing, [Some v] when it is there with value [v], which
    may be [undefined] ([Some None]). *)
Record t : Type := mk {
  category : option (option string);
  minPrice : option (option JS.number);
  maxPrice : option (option JS.number);
  minRating : option (option JS.number);
  searchQuery : option (option string)
}.
Definition none : t := mk None None None None None.
End FilterPatch.

Module ProductList.
Import JS.

Record Obj (A : Type) : Type := mkObj {
  addr : nat;
  val : A
}.
Arguments mkObj {A} addr val.
Arguments addr {A} o.
Arguments val {A} o.

Record State : Type := mkState {
  (* state hooks *)
  products : list Product;
  loading : bool;
  error : option string;
  filters : Obj ProductFilter;
  showAddModal : bool;
  editingProduct : option Product;
  deletingId : option string;
  tempFilters : Obj ProductFilter;
  (* surroundings *)
  db : Backend.DB;
  now : Z;                 (* the browser's clock *)
  fresh : nat;             (* address of the next object created *)
  log : list Call          (* service calls issued so far, oldest first *)
}.

Definition set_products (v : list Product) (s : State) : State :=
  mkState v (loading s) (error s) (filters s) (showAddModal s)
          (editingProduct s) (deletingId s) (tempFilters s)
          (db s) (now s) (fresh s) (log s).
Definition set_loading (v : bool) (s : State) : State :=
  mkState (products s) v (error s) (filters s) (showAddModal s)
          (editingProduct s) (deletingId s) (tempFilters s)
          (db s) (now s) (fresh s) (log s).
Definition set_error (v : option string) (s : State) : State :=
  mkState (products s) (loading s) v (filters s) (showAddModal s)
          (editingProduct s) (deletingId s) (tempFilters s)
          (db s) (now s) (fresh s) (log s).
Definition set_filters (v : Obj ProductFilter) (s : State) : State :=
  mkState (products s) (loading s) (error s) v (showAddModal s)
          (editingProduct s) (deletingId s) (tempFilters s)
          (db s) (now s) (fresh s) (log s).
Definition set_showAddModal (v : bool) (s : State) : State :=
  mkState (products s) (loading s) (error s) (filters s) v
          (editingProduct s) (deletingId s) (tempFilters s)
          (db s) (now s) (fresh s) (log s).
Definition set_editingProduct (v : option Product) (s : State) : State :=
  mkState (products s) (loading s) (error s) (filters s) (showAddModal s)
          v (deletingId s) (tempFilters s)
          (db s) (now s) (fresh s) (log s).
Definition set_deletingId (v : option string) (s : State) : State :=
  mkState (products s) (loading s) (error s) (filters s) (showAddModal s)
          (editingProduct s) v (tempFilters s)
          (db s) (now s) (fresh s) (log s).
Definition set_tempFilters (v : Obj ProductFilter) (s : State) : State :=
  mkState (products s) (loading s) (error s) (filters s) (showAddModal s)
          (editingProduct s) (deletingId s) v
          (db s) (now s) (fresh s) (log s).
Definition set_db (v : Backend.DB) (s : State) : State :=
  mkState (products s) (loading s) (error s) (filters s) (showAddModal s)
          (editingProduct s) (deletingId s) (tempFilters s)
          v (now s) (fresh s) (log s).
Definition set_now (v : Z) (s : State) : State :=
  mkState (products s) (loading s) (error s) (filters s) (showAddModal s)
          (editingProduct s) (deletingId s) (tempFilters s)
          (db s) v (fresh s) (log s).
Definition set_fresh (v : nat) (s : State) : State :=
  mkState (products s) (loading s) (error s) (filters s) (showAddModal s)
          (editingProduct s) (deletingId s) (tempFilters s)
          (db s) (now s) v (log s).
Definition set_log (v : list Call) (s : State) : State :=
  mkState (products s) (loading s) (error s) (filters s) (showAddModal s)
          (editingProduct s) (deletingId s) (tempFilters s)
          (db s) (now s) (fresh s) v.

Definition called (c : Call) (s : State) : State :=
  set_log (log s ++ [c])%list s.

(** [refreshProductList], a callback renewed when [filters] is. *)
Definition refreshProductList (s : State) : State :=
  let s := set_loading true s in
  let s := called (call_getProducts (Some (val (filters s)))) s in
  let s :=
    match productService.getProducts (db s) (Some (val (filters s))) with
    | Ok productList => set_error None (set_products productList s)
    | Err message => set_error (Some message) s
    end in
  set_loading false s.

(** [{ ...prev, ...newFilters }] *)
Definition merge (prev : ProductFilter) (newFilters : FilterPatch.t) : ProductFilter :=
  let over {A : Type} (n : option (option A)) (old : option A) : option A :=
    match n with Some v => v | None => old end in
  ProductFilter.mk
    (over (FilterPatch.category newFilters) (ProductFilter.category prev))
    (over (FilterPatch.minPrice newFilters) (ProductFilter.minPrice prev))
    (over (FilterPatch.maxPrice newFilters) (ProductFilter.maxPrice prev))
    (over (FilterPatch.minRating newFilters) (ProductFilter.minRating prev))
    (over (FilterPatch.searchQuery newFilters) (ProductFilter.searchQuery prev)).

Definition handleFilter (newFilters : FilterPatch.t) (s : State) : State :=
  set_fresh (S (fresh s))
    (set_tempFilters (mkObj (fresh s) (merge (val (tempFilters s)) newFilters)) s).

(** [setFilters(tempFilters)], then the effect on [refreshProductList] when the
    committed object has changed. *)
Definition applyFilters (s : State) : State :=
  if (addr (tempFilters s) =? addr (filters s))%nat then s
  else refreshProductList (set_filters (tempFilters s) s).

(** [userConfirmed] is the answer given to [window.confirm]. *)
Definition handleProductRemoval (productId : string) (userConfirmed : bool)
  (s : State) : State :=
  if negb userConfirmed then s
  else
    let s := set_deletingId (Some productId) s in
    let s := called (call_deleteProduct productId) s in
    let s :=
      match productService.deleteProduct (db s) productId with
      | Ok db' =>
          set_error None
            (set_products
               (filter (fun product => negb (Product.id product =? productId)%string)
                       (products s))
               (set_db db' s))
      | Err message => set_error (Some message) s
      end in
    set_deletingId None s.

(** [Number(e.target.value) || undefined] *)
Definition number_or_undefined (value : string) : option number :=
  if truthy_num (Number value) then Some (Number value) else None.

Definition onClose (s : State) : State :=
  set_editingProduct None (set_showAddModal false s).

Definition onSuccess (s : State) : State := refreshProductList s.

(** The form is given [editingProduct || undefined]; [productDetails] is the
    content of its fields when it is submitted. *)
Definition submitForm (productDetails : ProductForm.Details) (s : State) : State :=
  let r := ProductForm.handleSubmit (now s) (db s) (editingProduct s) productDetails in
  let s := set_db (ProductForm.db_after r)
                  (set_log (log s ++ ProductForm.calls r)%list s) in
  if ProductForm.succeeded r then onClose (onSuccess s) else s.

Inductive Event : Type :=
| SearchChanged (value : string)
| CategoryChanged (value : string)
| MinPriceChanged (value : string)
| MaxPriceChanged (value : string)
| MinRatingChanged (value : string)
| ApplyClicked
| AddClicked
| EditClicked (product : Product)
| DeleteClicked (productId : string) (userConfirmed : bool)
| FormSubmitted (productDetails : ProductForm.Details)
| FormClosed
| Elapsed (ms : Z).

(** An edit of one of the five filter controls, as the patch it hands to
    [handleFilter]. *)
Definition edit_patch (e : Event) : option FilterPatch.t :=
  match e with
  | SearchChanged v => Some (FilterPatch.mk None None None None (Some (Some v)))
  | CategoryChanged v => Some (FilterPatch.mk (Some (Some v)) None None None None)
  | MinPriceChanged v =>
      Some (FilterPatch.mk None (Some (number_or_undefined v)) None None None)
  | MaxPriceChanged v =>
      Some (FilterPatch.mk None None (Some (number_or_undefined v)) None None)
  | MinRatingChanged v =>
      Some (FilterPatch.mk None None None (Some (number_or_undefined v)) None)
  | _ => None
  end.

Definition step (e : Event) (s : State) : State :=
  match e with
  | SearchChanged _ | CategoryChanged _ | MinPriceChanged _
  | MaxPriceChanged _ | MinRatingChanged _ =>
      match edit_patch e with
      | Some newFilters => handleFilter newFilters s
      | None => s
      end
  | ApplyClicked => applyFilters s
  | AddClicked => set_showAddModal true s
  | EditClicked product => set_editingProduct (Some product) s
  | DeleteClicked productId userConfirmed =>
      handleProductRemoval productId userConfirmed s
  | FormSubmitted productDetails => submitForm productDetails s
  | FormClosed => onClose s
  | Elapsed ms =>
      set_now (now s + ms)
        (set_db (Backend.mkDB (Backend.products (db s)) (Backend.next_id (db s))
                              (Backend.server_time (db s) + ms)) s)
  end.

Definition run (es : list Event) (s : State) : State :=
  fold_left (fun s e => step e s) es s.

(** The first render and its effect: both filter objects start as two
    distinct empty objects. *)
Definition initial (db : Backend.DB) (now : Z) : State :=
  mkState [] true None (mkObj 0%nat ProductFilter.empty) false None None
          (mkObj 1%nat ProductFilter.empty) db now 2%nat [].

Definition mount (db : Backend.DB) (now : Z) : State :=
  refreshProductList (initial db now).

(** The [getProducts] calls in a log. *)
Definition fetches (l : list Call) : list (option ProductFilter) :=
  flat_map (fun c => match c with call_getProducts f => [f] | _ => [] end) l.

End ProductList.

(** ** Vocabulary of the specification *)

Module Spec.
Import JS.

Definition text (s : string) : chars := list_ascii_of_string s.

Definition fold_case (l : chars) : chars := map Backend.lower l.

(** [x] occurs in [s] as a substring, letter case ignored. *)
Definition occurs (x s : string) : Prop :=
  exists before after : chars,
    fold_case (text s) = (before ++ fold_case (text x) ++ after)%list.

(** The same, decided: [x] starts [s], or occurs further on. *)
Fixpoint starts_with (x s : chars) : bool :=
  match x, s with
  | [], _ => true
  | _ :: _, [] => false
  | c :: x', d :: s' => (Backend.lower c =? Backend.lower d)%char && starts_with x' s'
  end.

Fixpoint contains (x s : chars) : bool :=
  starts_with x s || match s with [] => false | _ :: s' => contains x s' end.

Definition found (x : string) (r : Product) : bool :=
  contains (text x) (text (Product.name r))
  || contains (text x) (text (Product.description r)).

(** A bound or value that is absent constrains nothing. *)
Definition when {A : Type} (o : option A) (test : A -> bool) : bool :=
  match o with
  | Some v => test v
  | None => true
  end.

(** The conjunction of all present fields, every present field counting. *)
Definition satisfies_all_present (f : ProductFilter) (r : Product) : bool :=
  when (ProductFilter.category f) (fun c => (Product.category r =? c)%string)
  && when (ProductFilter.minPrice f) (fun v => ge (Product.price r) v)
  && when (ProductFilter.maxPrice f) (fun v => le (Product.price r) v)
  && when (ProductFilter.minRating f) (fun v => ge (Product.rating r) v)
  && when (ProductFilter.searchQuery f) (fun x => found x r).

(** An empty text counts as absent. *)
Definition nonempty (o : option string) : option string :=
  match o with
  | Some s => if truthy s then Some s else None
  | None => None
  end.

(** The conjunction of the fields [getProducts] takes into account. *)
Definition satisfies (f : ProductFilter) (r : Product) : bool :=
  when (nonempty (ProductFilter.category f)) (fun c => (Product.category r =? c)%string)
  && when (ProductFilter.minPrice f) (fun v => ge (Product.price r) v)
  && when (ProductFilter.maxPrice f) (fun v => le (Product.price r) v)
  && when (ProductFilter.minRating f) (fun v => ge (Product.rating r) v)
  && when (nonempty (ProductFilter.searchQuery f)) (fun x => found x r).

Definition selected (filters : option ProductFilter) (r : Product) : bool :=
  match filters with
  | Some f => satisfies f r
  | None => true
  end.

(** The filters [getProducts] is expected to put in its query, in order. *)
Definition maybe {A : Type} (o : option A) : list A :=
  match o with
  | Some a => [a]
  | None => []
  end.

Definition expected_filters (f : ProductFilter) : list Backend.Filter :=
  (maybe (option_map (Backend.q_eq "category") (nonempty (ProductFilter.category f)))
   ++ maybe (option_map (Backend.q_gte "price") (ProductFilter.minPrice f))
   ++ maybe (option_map (Backend.q_lte "price") (ProductFilter.maxPrice f))
   ++ maybe (option_map (Backend.q_gte "rating") (ProductFilter.minRating f))
   ++ maybe (option_map (fun x => Backend.q_or (productService.search_filter x))
                        (nonempty (ProductFilter.searchQuery f))))%list.

(** Characters with a meaning of their own in a pattern, or reserved in the
    text given to [or]. *)
Definition special (c : ascii) : bool :=
  (c =? Backend.percent)%char || (c =? Backend.underscore)%char
  || (c =? Backend.backslash)%char || (c =? Backend.star)%char
  || (c =? Backend.comma)%char || Backend.quoting c
  || (c =? Backend.dot)%char || (c =? Backend.colon)%char.

Definition plain (x : string) : bool := forallb (fun c => negb (special c)) (text x).

(** Characters a value may hold without changing its reading as a pattern. *)
Definition harmless (c : ascii) : Prop :=
  Backend.quoting c = false
  /\ (c =? Backend.star)%char = false
  /\ (c =? Backend.backslash)%char = false.

Definition plain_search (filters : option ProductFilter) : bool :=
  match filters with
  | Some f => when (ProductFilter.searchQuery f) plain
  | None => true
  end.

(** Newest first. *)
Definition newest_first (rows : list Product) : Prop :=
  StronglySorted (fun a b => Product.created_at b <= Product.created_at a) rows.

(** The rules of the form, in the order of the specification, each with the
    message shown when it fails. *)
Definition rule_name (d : ProductForm.Details) : bool :=
  truthy (trim (ProductForm.name d)).
Definition rule_description (d : ProductForm.Details) : bool :=
  truthy (trim (ProductForm.description d)).
Definition rule_category (d : ProductForm.Details) : bool :=
  truthy (ProductForm.category d).
Definition rule_price (d : ProductForm.Details) : bool :=
  let v := Number (ProductForm.price d) in
  negb (isNaN v) && ge v (Fin 0).
Definition rule_rating (d : ProductForm.Details) : bool :=
  let v := Number (ProductForm.rating d) in
  negb (isNaN v) && ge v (Fin 0) && le v (Fin (inject_Z 5)).

Definition rules : list ((ProductForm.Details -> bool) * string) :=
  [ (rule_name, ProductForm.name_message);
    (rule_description, ProductForm.description_message);
    (rule_category, ProductForm.category_message);
    (rule_price, ProductForm.formRules.price_message);
    (rule_rating, ProductForm.formRules.rating_message) ].

(** The message of the first rule that fails, if one does. *)
Fixpoint first_failure (rs : list ((ProductForm.Details -> bool) * string))
  (d : ProductForm.Details) : option string :=
  match rs with
  | [] => None
  | (holds, message) :: rs' =>
      if holds d then first_failure rs' d else Some message
  end.

(** The generated identifier is not in use. *)
Definition id_free (db : Backend.DB) : Prop :=
  existsb (fun x => (Product.id x =? Backend.gen_id (Backend.next_id db))%string)
          (Backend.products db) = false.

(** The stored records having a given identifier. *)
Definition rows_with_id (i : string) (db : Backend.DB) : list Product :=
  filter (fun r => (Product.id r =? i)%string) (Backend.products db).


(** The two filter objects were created before the next object will be. *)
Definition allocated (s : ProductList.State) : Prop :=
  (ProductList.addr (ProductList.filters s) < ProductList.fresh s)%nat
  /\ (ProductList.addr (ProductList.tempFilters s) < ProductList.fresh s)%nat.

(** A state the component can be in: mounted, then driven by events. *)
Definition reachable (s : ProductList.State) : Prop :=
  exists db now es, s = ProductList.run es (ProductList.mount db now).

(** The list shown in [s'] comes from one more fetch than [s] had made. *)
Definition refetched (s s' : ProductList.State) : Prop :=
  exists f,
    ProductList.fetches (ProductList.log s')
    = (ProductList.fetches (ProductList.log s) ++ [f])%list.

Definition removed (productId : string) (l : list Product) : list Product :=
  filter (fun product => negb (Product.id product =? productId)%string) l.

Definition call_name (c : Call) : option string :=
  match c with
  | call_createProduct p => Some (Draft.name p)
  | call_updateProduct _ u => Updates.name u
  | _ => None
  end.

Definition call_description (c : Call) : option string :=
  match c with
  | call_createProduct p => Some (Draft.description p)
  | call_updateProduct _ u => Updates.description u
  | _ => None
  end.

End Spec.

(** ** Sample data *)

Module Sample.
Import JS.

Definition dec (n : Z) (d : positive) : number := Fin (Qmake n d).
Definition int (n : Z) : number := Fin (inject_Z n).

Definition book (i : string) (title about : string) (price rating : number) (t : Z)
  : Product :=
  Product.mk i title about "Books" price rating t.

(** Who a record is: everything but its category, price and rating. *)
Record Label : Type := mkLabel {
  l_id : string;
  l_name : string;
  l_description : string;
  l_created_at : Z
}.

Definition labelled (l : Label) (price rating : number) : Product :=
  book (l_id l) (l_name l) (l_description l) price rating (l_created_at l).

(** Five books priced 5, 12, 18, 25, 15 and rated 3, 4.5, 5, 2, 4. *)
Definition five_books (l1 l2 l3 l4 l5 : Label) : list Product :=
  [ labelled l1 (int 5) (int 3);
    labelled l2 (int 12) (dec 45 10);
    labelled l3 (int 18) (int 5);
    labelled l4 (int 25) (int 2);
    labelled l5 (int 15) (int 4) ].

Definition books_filter : ProductFilter :=
  ProductFilter.mk (Some "Books") (Some (int 10)) (Some (int 20)) (Some (int 4)) None.

Definition catalog : list Product :=
  five_books (mkLabel "1" "Alpha" "first" 100) (mkLabel "2" "Beta" "second" 200)
             (mkLabel "3" "Gamma" "third" 300) (mkLabel "4" "Delta" "fourth" 400)
             (mkLabel "5" "Epsilon" "fifth" 500).

Definition shop : Backend.DB := Backend.mkDB catalog 6 1000.

(** Two records for searches: no underscore anywhere, one comma. *)
Definition shelf : Backend.DB :=
  Backend.mkDB [ Product.mk "1" "ab" "cd" "Home" (int 1) (int 1) 10;
                 Product.mk "2" "a,b" "x" "Home" (int 2) (int 2) 20 ] 3 1000.

Definition search (x : string) : ProductFilter :=
  ProductFilter.mk None None None None (Some x).

Definition draft : Draft.t := Draft.mk "  Lamp " " warm light " "Home" (int 20) (int 4).

Definition details : ProductForm.Details :=
  ProductForm.mkDetails "  Lamp " " warm light " "Home" "20" "4".

End Sample.

(** ** components/auth/Login.tsx *)

Module Login.

(** [s.includes(sub)]: [sub] occurs in [s], letter case counting. *)
Fixpoint begins (sub s : JS.chars) : bool :=
  match sub, s with
  | [], _ => true
  | _ :: _, [] => false
  | c :: sub', d :: s' => (c =? d)%char && begins sub' s'
  end.

Fixpoint includes_chars (s sub : JS.chars) : bool :=
  begins sub s || match s with [] => false | _ :: s' => includes_chars s' sub end.

Definition includes (s sub : string) : bool :=
  includes_chars (list_ascii_of_string s) (list_ascii_of_string sub).

(** What a rejected [signIn] throws: an [Error] with its message, or any
    other value. *)
Inductive Thrown : Type :=
| an_Error (message : string)
| another_value.

(** [signIn] comes from the authentication context, which is not among the
    sources: it is a parameter, [None] standing for a promise that resolves. *)
Definition SignIn : Type := string -> string -> option Thrown.

Record State : Type := mkState {
  email : string;
  password : string;
  error : option string;
  loading : bool
}.

(** What one run of [handleSubmit] leaves behind. *)
Record Outcome : Type := mkOutcome {
  after : State;
  attempts : list (string * string);   (* calls of [signIn], in order *)
  navigated : option string            (* the path given to [navigate] *)
}.

Definition handleSubmit (signIn : SignIn) (s : State) : Outcome :=
  if negb (includes (email s) "@") then
    mkOutcome (mkState (email s) (password s)
                       (Some "Please enter a valid email") (loading s))
              [] None
  else
    match signIn (email s) (password s) with
    | None =>
        mkOutcome (mkState (email s) (password s) None false)
                  [(email s, password s)] (Some "/products")
    | Some err =>
        let shown :=
          match err with
          | an_Error message =>
              if includes message "auth/invalid-credential"
              then "Invalid email or password"
              else "Something went wrong. Try again later."
          | another_value => "Login failed for unknown reason"
          end in
        mkOutcome (mkState (email s) (password s) (Some shown) false)
                  [(email s, password s)] None
    end.

End Login.

(** ** Further vocabulary *)

Module Notions.
Import JS.

(** The list shown has the records [getProducts] returns for the committed
    filter, newest first; which of two records of one date comes first is not
    compared. *)
Definition shows_listing (s : ProductList.State) : Prop :=
  exists rows,
    productService.getProducts (ProductList.db s)
      (Some (ProductList.val (ProductList.filters s))) = Ok rows
    /\ Permutation (ProductList.products s) rows
    /\ Spec.newest_first (ProductList.products s).

(** A number with a JSON form: neither NaN nor an infinity. *)
Definition finite (x : number) : bool :=
  match x with
  | Fin _ => true
  | _ => false
  end.

(** The events after which the list is fetched: at most one fetch each. *)
Definition refreshing (e : ProductList.Event) : nat :=
  match e with
  | ProductList.ApplyClicked | ProductList.FormSubmitted _ => 1%nat
  | _ => 0%nat
  end.

Definition refreshes (es : list ProductList.Event) : nat :=
  fold_right (fun e n => (refreshing e + n)%nat) 0%nat es.

(** A numeric bound is absent, or neither 0 nor NaN. *)
Definition bound_set (o : option number) : Prop :=
  match o with
  | Some v => truthy_num v = true
  | None => True
  end.

Definition bounds_set (f : ProductFilter) : Prop :=
  bound_set (ProductFilter.minPrice f)
  /\ bound_set (ProductFilter.maxPrice f)
  /\ bound_set (ProductFilter.minRating f).

(** Every fetch in a log was made with numeric bounds that are set. *)
Definition fetched_with_bounds_set (l : list Call) : Prop :=
  Forall (fun o => match o with Some f => bounds_set f | None => True end)
         (ProductList.fetches l).

(** The filter field an edit of a control writes. *)
Definition control (e : ProductList.Event) : option string :=
  match e with
  | ProductList.SearchChanged _ => Some "searchQuery"
  | ProductList.CategoryChanged _ => Some "category"
  | ProductList.MinPriceChanged _ => Some "minPrice"
  | ProductList.MaxPriceChanged _ => Some "maxPrice"
  | ProductList.MinRatingChanged _ => Some "minRating"
  | _ => None
  end.

Definition draft_after (es : list ProductList.Event) (s : ProductList.State)
  : ProductFilter :=
  ProductList.val (ProductList.tempFilters (ProductList.run es s)).

(** A text of white space only, the empty text included. *)
Definition blank (s : string) : bool :=
  forallb is_space (list_ascii_of_string s).

(** The category and the three numeric bounds of a filter, without its
    search. *)
Definition within_bounds (filters : option ProductFilter) (r : Product) : bool :=
  match filters with
  | None => true
  | Some f =>
      Spec.when (Spec.nonempty (ProductFilter.category f))
                (fun c => (Product.category r =? c)%string)
      && Spec.when (ProductFilter.minPrice f) (fun v => ge (Product.price r) v)
      && Spec.when (ProductFilter.maxPrice f) (fun v => le (Product.price r) v)
      && Spec.when (ProductFilter.minRating f) (fun v => ge (Product.rating r) v)
  end.

(** Every stored record is older than [now]. *)
Definition all_older (now : Z) (db : Backend.DB) : Prop :=
  Forall (fun x => Product.created_at x < now) (Backend.products db).

(** The message [single] gives when it does not find exactly one row. *)
Definition not_single : string :=
  "JSON object requested, multiple (or no) rows returned".

(** What the data model asks of a record. *)
Definition well_formed (r : Product) : Prop :=
  truthy (trim (Product.name r)) = true
  /\ truthy (trim (Product.description r)) = true
  /\ truthy (Product.category r) = true
  /\ isNaN (Product.price r) = false
  /\ ge (Product.price r) (Fin 0) = true
  /\ ge (Product.rating r) (Fin 0) = true
  /\ le (Product.rating r) (Fin (inject_Z 5)) = true.

Definition is_mutation (c : Call) : bool :=
  match c with
  | call_getProducts _ => false
  | _ => true
  end.

End Notions.

(** * Properties *)

Local Open Scope list_scope.

(** ** Readings of [Number] and [trim] *)

Example Number_decimal :
  JS.Number " 5.1 " = JS.Fin (2871044762448691 # 562949953421312).
Proof. vm_compute. reflexivity. Qed.
Example Number_negative :
  JS.Number "-0.1" = JS.Fin (- (3602879701896397 # 36028797018963968)).
Proof. vm_compute. reflexivity. Qed.
Example Number_rounds : JS.Number "5.0000000000000001" = JS.Fin (inject_Z 5).
Proof. vm_compute. reflexivity. Qed.
Example Number_overflows : JS.Number "1e400" = JS.PosInf.
Proof. vm_compute. reflexivity. Qed.
Example Number_underflows : JS.Number "1e-400" = JS.Fin 0.
Proof. vm_compute. reflexivity. Qed.
Example Number_empty : JS.Number "" = JS.Fin 0.
Proof. reflexivity. Qed.
Example Number_exp : JS.Number "1.5e2" = JS.Fin (inject_Z 150).
Proof. reflexivity. Qed.
Example Number_hex : JS.Number "0x1F" = JS.Fin (inject_Z 31).
Proof. reflexivity. Qed.
Example Number_junk : JS.Number "12abc" = JS.NaN.
Proof. reflexivity. Qed.
Example Number_inf : JS.Number "-Infinity" = JS.NegInf.
Proof. reflexivity. Qed.
Example Number_dot : JS.Number "." = JS.NaN.
Proof. reflexivity. Qed.
Example trim_ex : JS.trim "  a b  " = "a b".
Proof. reflexivity. Qed.

(** ** Numbers *)

Lemma lt_is_not_ge (x y : JS.number) :
  JS.isNaN x = false -> JS.isNaN y = false -> JS.lt x y = negb (JS.ge x y).
Proof.
  unfold JS.ge.
  destruct x, y; simpl; intros Hx Hy; try discriminate; reflexivity.
Qed.

Lemma gt_is_not_le (x y : JS.number) :
  JS.isNaN x = false -> JS.isNaN y = false -> JS.gt x y = negb (JS.le x y).
Proof.
  unfold JS.gt.
  destruct x, y; simpl; intros Hx Hy; try discriminate; reflexivity.
Qed.

(** ** The form's validation *)

Lemma first_failure_None rs d :
  Spec.first_failure rs d = None <-> forallb (fun r => fst r d) rs = true.
Proof.
  induction rs as [| [holds message] rs IH]; simpl.
  - tauto.
  - destruct (holds d); simpl.
    + exact IH.
    + split; discriminate.
Qed.

Lemma first_failure_Some rs d m :
  Spec.first_failure rs d = Some m ->
  exists earlier holds later,
    rs = (earlier ++ (holds, m) :: later)%list
    /\ forallb (fun r => fst r d) earlier = true
    /\ holds d = false.
Proof.
  induction rs as [| [holds message] rs IH]; simpl.
  - discriminate.
  - destruct (holds d) eqn:E.
    + intros H. destruct (IH H) as (earlier & h & later & -> & Hall & Hh).
      exists ((holds, message) :: earlier), h, later. simpl.
      rewrite E, Hall. auto.
    + intros [= <-]. exists [], holds, rs. auto.
Qed.

Lemma checkFormValidity_by_rules d :
  ProductForm.checkFormValidity d = Spec.first_failure Spec.rules d.
Proof.
  unfold ProductForm.checkFormValidity, Spec.rules. simpl.
  unfold Spec.rule_name, Spec.rule_description, Spec.rule_category,
    Spec.rule_price, Spec.rule_rating.
  destruct (JS.truthy (JS.trim (ProductForm.name d))); simpl; [| reflexivity].
  destruct (JS.truthy (JS.trim (ProductForm.description d))); simpl; [| reflexivity].
  destruct (JS.truthy (ProductForm.category d)); simpl; [| reflexivity].
  unfold ProductForm.formRules.price_min, ProductForm.formRules.rating_min,
    ProductForm.formRules.rating_max, JS.gt, JS.ge.
  destruct (JS.Number (ProductForm.price d)) as [| p | |]; simpl;
    try reflexivity.
  - destruct (Qle_bool 0 p); simpl; [| reflexivity].
    destruct (JS.Number (ProductForm.rating d)) as [| r | |]; simpl;
      try reflexivity.
    destruct (Qle_bool 0 r), (Qle_bool r (inject_Z 5)); reflexivity.
  - destruct (JS.Number (ProductForm.rating d)) as [| r | |]; simpl;
      try reflexivity.
    destruct (Qle_bool 0 r), (Qle_bool r (inject_Z 5)); reflexivity.
Qed.

(** C6. For every state of the form, [checkFormValidity] gives the result of
    going through the five rules in their order (name not empty once trimmed,
    description not empty once trimmed, category chosen, price a number that
    is at least 0, rating a number between 0 and 5) and stopping at the first
    one that fails: the result is that rule's message alone, every earlier
    rule holding; it is [null] exactly when all five rules hold. *)
Theorem checkFormValidity_first_failing_rule :
  forall d : ProductForm.Details,
    ProductForm.checkFormValidity d = Spec.first_failure Spec.rules d
    /\ (ProductForm.checkFormValidity d = None
        <-> forallb (fun r => fst r d) Spec.rules = true)
    /\ (forall m, ProductForm.checkFormValidity d = Some m ->
        exists earlier holds later,
          Spec.rules = (earlier ++ (holds, m) :: later)%list
          /\ forallb (fun r => fst r d) earlier = true
          /\ holds d = false).
Proof.
  intros d. rewrite checkFormValidity_by_rules. split; [reflexivity |]. split.
  - apply first_failure_None.
  - intros m. apply first_failure_Some.
Qed.

Lemma checkFormValidity_rating n ds c p r :
  JS.truthy (JS.trim n) = true ->
  JS.truthy (JS.trim ds) = true ->
  JS.truthy c = true ->
  Spec.rule_price (ProductForm.mkDetails n ds c p r) = true ->
  ProductForm.checkFormValidity (ProductForm.mkDetails n ds c p r)
  = if Spec.rule_rating (ProductForm.mkDetails n ds c p r) then None
    else Some ProductForm.formRules.rating_message.
Proof.
  intros Hn Hd Hc Hp. rewrite checkFormValidity_by_rules.
  unfold Spec.rules, Spec.first_failure, Spec.rule_name, Spec.rule_description,
    Spec.rule_category.
  cbn [ProductForm.name ProductForm.description ProductForm.category].
  rewrite Hn, Hd, Hc, Hp. reflexivity.
Qed.

Lemma handleSubmit_rejected now db product d m :
  ProductForm.checkFormValidity d = Some m ->
  ProductForm.handleSubmit now db product d
  = ProductForm.mkSubmission (Some m) [] db None false.
Proof.
  intros H. unfold ProductForm.handleSubmit. rewrite H. reflexivity.
Qed.

Lemma handleSubmit_accepted now db product d :
  ProductForm.checkFormValidity d = None ->
  exists c, ProductForm.calls (ProductForm.handleSubmit now db product d) = [c]
    /\ Spec.call_name c = Some (ProductForm.name d)
    /\ Spec.call_description c = Some (ProductForm.description d).
Proof.
  intros H. unfold ProductForm.handleSubmit. rewrite H.
  destruct product as [p |]; [destruct (JS.truthy (Product.id p)) |].
  - destruct (productService.updateProduct _ _ _) as [[db' r] | m];
      eexists; split; reflexivity || (split; reflexivity).
  - destruct (productService.createProduct _ _ _) as [[db' r] | m];
      eexists; split; reflexivity || (split; reflexivity).
  - destruct (productService.createProduct _ _ _) as [[db' r] | m];
      eexists; split; reflexivity || (split; reflexivity).
Qed.

Lemma checkFormValidity_rating_fails d :
  Spec.rule_rating d = false -> ProductForm.checkFormValidity d <> None.
Proof.
  intros Hr H. rewrite checkFormValidity_by_rules in H.
  apply first_failure_None in H. unfold Spec.rules in H. simpl in H.
  rewrite Hr, !andb_false_r in H. discriminate.
Qed.

(** C7. The bounds on the rating are inclusive.  Whatever the other fields, a
    rating of 5.1 or of -0.1 is refused by validation and [handleSubmit]
    then calls no service and leaves the backend as it was; when the name,
    description, category and price pass, the message is the rating's, and a
    rating of exactly 5 or exactly 0 passes validation, [handleSubmit] making
    its one service call. *)
Theorem rating_bounds_inclusive :
  forall now db product n ds c p,
    let form r := ProductForm.mkDetails n ds c p r in
    let submission r := ProductForm.handleSubmit now db product (form r) in
    let refused r :=
      ProductForm.checkFormValidity (form r) <> None
      /\ ProductForm.calls (submission r) = []
      /\ ProductForm.db_after (submission r) = db in
    let accepted r :=
      ProductForm.checkFormValidity (form r) = None
      /\ List.length (ProductForm.calls (submission r)) = 1%nat in
    refused "5.1" /\ refused "-0.1"
    /\ (JS.truthy (JS.trim n) = true ->
        JS.truthy (JS.trim ds) = true ->
        JS.truthy c = true ->
        Spec.rule_price (form "") = true ->
        ProductForm.checkFormValidity (form "5.1")
        = Some ProductForm.formRules.rating_message
        /\ ProductForm.checkFormValidity (form "-0.1")
           = Some ProductForm.formRules.rating_message
        /\ accepted "5" /\ accepted "0").
Proof.
  intros now db product n ds c p form submission refused accepted.
  assert (R : forall r, Spec.rule_rating (form r) = false -> refused r).
  { intros r Hr. unfold refused, submission.
    pose proof (checkFormValidity_rating_fails (form r) Hr) as Hne.
    destruct (ProductForm.checkFormValidity (form r)) as [m |] eqn:E;
      [| contradiction].
    rewrite (handleSubmit_rejected now db product _ _ E).
    repeat split. discriminate. }
  split; [apply (R "5.1" eq_refl) |].
  split; [apply (R "-0.1" eq_refl) |].
  intros Hn Hd Hc Hp.
  assert (V : forall r,
             ProductForm.checkFormValidity (form r)
             = if Spec.rule_rating (form r) then None
               else Some ProductForm.formRules.rating_message).
  { intros r. apply (checkFormValidity_rating n ds c p r Hn Hd Hc Hp). }
  assert (A : forall r, Spec.rule_rating (form r) = true -> accepted r).
  { intros r Hr. unfold accepted, submission.
    assert (E : ProductForm.checkFormValidity (form r) = None).
    { rewrite V, Hr. reflexivity. }
    split; [exact E |].
    destruct (handleSubmit_accepted now db product _ E) as (call & -> & _).
    reflexivity. }
  split; [apply (V "5.1") |].
  split; [apply (V "-0.1") |].
  split; [apply (A "5" eq_refl) | apply (A "0" eq_refl)].
Qed.

Lemma rating_bounds_inclusive_witness :
  let form r := ProductForm.mkDetails "  Lamp " " warm light " "Home" "20" r in
  ProductForm.checkFormValidity (form "5.1")
  = Some ProductForm.formRules.rating_message
  /\ ProductForm.checkFormValidity (form "5") = None.
Proof.
  destruct (rating_bounds_inclusive 0 Sample.shop None
              "  Lamp " " warm light " "Home" "20")
    as (_ & _ & H).
  destruct (H eq_refl eq_refl eq_refl eq_refl) as (H1 & _ & (H3 & _) & _).
  split; [exact H1 | exact H3].
Defined.

(** ** The query built by [getProducts] *)

Lemma getProducts_query_shape filters :
  productService.getProducts_query filters
  = Backend.mkQuery "products"
      (match filters with Some f => Spec.expected_filters f | None => [] end)
      (Some ("created_at", false)).
Proof.
  destruct filters as [[c lo hi rt x] |]; [| reflexivity].
  unfold productService.getProducts_query, Spec.expected_filters, Spec.nonempty.
  cbn [ProductFilter.category ProductFilter.minPrice ProductFilter.maxPrice
       ProductFilter.minRating ProductFilter.searchQuery].
  destruct c as [c |]; [destruct (JS.truthy c) |];
    (destruct lo as [lo |]; destruct hi as [hi |]; destruct rt as [rt |];
     (destruct x as [x |]; [destruct (JS.truthy x) |]));
    reflexivity.
Qed.

(** C9. In the query [getProducts] builds, a category or a search text that is
    present but empty leaves no trace: the query is the one built without that
    field.  A [minPrice], [maxPrice] or [minRating] that is present and equal
    to 0 does put its bound in the query, which then differs from the query
    built without the field. *)
Theorem getProducts_query_empty_text_and_zero_bounds :
  forall (c : option string) (lo hi rt : option JS.number) (x : option string),
    let query c lo hi rt x :=
      productService.getProducts_query (Some (ProductFilter.mk c lo hi rt x)) in
    let zero := JS.Fin 0 in
    query (Some "") lo hi rt x = query None lo hi rt x
    /\ query c lo hi rt (Some "") = query c lo hi rt None
    /\ In (Backend.q_gte "price" zero) (Backend.conds (query c (Some zero) hi rt x))
    /\ In (Backend.q_lte "price" zero) (Backend.conds (query c lo (Some zero) rt x))
    /\ In (Backend.q_gte "rating" zero) (Backend.conds (query c lo hi (Some zero) x))
    /\ query c (Some zero) hi rt x <> query c None hi rt x
    /\ query c lo (Some zero) rt x <> query c lo None rt x
    /\ query c lo hi (Some zero) x <> query c lo hi None x.
Proof.
  intros c lo hi rt x query zero. unfold query.
  rewrite !getProducts_query_shape.
  assert (L : forall l1 l2 : list Backend.Filter,
             List.length l1 <> List.length l2 ->
             Backend.mkQuery "products" l1 (Some ("created_at", false))
             <> Backend.mkQuery "products" l2 (Some ("created_at", false))).
  { intros l1 l2 H [= E]. apply H. rewrite E. reflexivity. }
  unfold Spec.expected_filters.
  cbn [ProductFilter.category ProductFilter.minPrice ProductFilter.maxPrice
       ProductFilter.minRating ProductFilter.searchQuery Backend.conds
       Spec.nonempty JS.truthy option_map Spec.maybe].
  repeat split.
  - rewrite !in_app_iff. cbn [In]. tauto.
  - rewrite !in_app_iff. cbn [In]. tauto.
  - rewrite !in_app_iff. cbn [In]. tauto.
  - apply L. rewrite !length_app. cbn [List.length]. lia.
  - apply L. rewrite !length_app. cbn [List.length]. lia.
  - apply L. rewrite !length_app. cbn [List.length]. lia.
Qed.

(** ** Creation *)

Lemma createProduct_stored now db (product : Draft.t) :
  Spec.id_free db ->
  let r := Product.mk (Backend.gen_id (Backend.next_id db))
                      (Draft.name product) (Draft.description product)
                      (Draft.category product) (Draft.price product)
                      (Draft.rating product) now in
  productService.createProduct now db product
  = Ok (Backend.mkDB (Backend.products db ++ [r])%list
                     (S (Backend.next_id db)) (Backend.server_time db),
        r).
Proof.
  intros Hfree. unfold Spec.id_free in Hfree.
  unfold productService.createProduct, productService.insert_payload,
    Backend.run_insert.
  cbn [Row.id Row.name Row.description Row.category Row.price Row.rating
       Row.created_at String.eqb Ascii.eqb Bool.eqb negb].
  simpl String.eqb. cbn [negb].
  rewrite Hfree. reflexivity.
Qed.





(** ** Ordering of the rows *)

Lemma place_perm asc r l : Permutation (Backend.place asc r l) (r :: l).
Proof.
  induction l as [| x l IH]; simpl.
  - apply Permutation_refl.
  - destruct (Backend.before asc r x).
    + apply Permutation_refl.
    + apply perm_trans with (x :: r :: l).
      * apply perm_skip, IH.
      * apply perm_swap.
Qed.

Lemma sort_rows_perm asc l : Permutation (Backend.sort_rows asc l) l.
Proof.
  induction l as [| x l IH]; simpl.
  - apply perm_nil.
  - apply perm_trans with (x :: Backend.sort_rows asc l).
    + apply place_perm.
    + apply perm_skip, IH.
Qed.

Lemma before_total asc a b :
  Backend.before asc a b = false -> Backend.before asc b a = true.
Proof. unfold Backend.before. destruct asc; lia. Qed.

Lemma before_trans asc a b c :
  Backend.before asc a b = true -> Backend.before asc b c = true ->
  Backend.before asc a c = true.
Proof. unfold Backend.before. destruct asc; lia. Qed.

Lemma place_sorted asc r l :
  StronglySorted (fun a b => Backend.before asc a b = true) l ->
  StronglySorted (fun a b => Backend.before asc a b = true) (Backend.place asc r l).
Proof.
  induction 1 as [| x l Hl IH Hx]; simpl.
  - constructor; constructor.
  - destruct (Backend.before asc r x) eqn:E.
    + constructor.
      * constructor; assumption.
      * constructor; [exact E |].
        eapply Forall_impl; [| exact Hx].
        intros y Hy. cbv beta in Hy. eapply before_trans; eassumption.
    + constructor; [exact IH |].
      apply (Permutation_Forall (Permutation_sym (place_perm asc r l))).
      constructor; [apply before_total, E | exact Hx].
Qed.

Lemma sort_rows_sorted asc l :
  StronglySorted (fun a b => Backend.before asc a b = true) (Backend.sort_rows asc l).
Proof.
  induction l as [| x l IH]; simpl.
  - constructor.
  - apply place_sorted, IH.
Qed.

Lemma sort_rows_newest_first l : Spec.newest_first (Backend.sort_rows false l).
Proof.
  unfold Spec.newest_first.
  induction (sort_rows_sorted false l) as [| x rows Hs IH Hx].
  - constructor.
  - constructor; [exact IH |].
    eapply Forall_impl; [| exact Hx].
    intros y Hy. unfold Backend.before in Hy. lia.
Qed.

(** ** Filters of a query *)

Lemma compile_all_app a b ka kb :
  Backend.compile_all a = Ok ka ->
  Backend.compile_all b = Ok kb ->
  exists k, Backend.compile_all (a ++ b) = Ok k
            /\ forall r, k r = ka r && kb r.
Proof.
  revert ka. induction a as [| f a IH]; simpl; intros ka Ha Hb.
  - injection Ha as <-. exists kb. split; [exact Hb | reflexivity].
  - destruct (Backend.compile f) as [c | m]; simpl in *; [| discriminate].
    destruct (Backend.compile_all a) as [ka' | m]; simpl in *; [| discriminate].
    injection Ha as <-.
    destruct (IH ka' eq_refl Hb) as (k' & -> & Hk'). simpl.
    eexists. split; [reflexivity |].
    intros r. cbv beta. rewrite Hk'. apply andb_assoc.
Qed.

Lemma compile_all_maybe {A : Type} (o : option A) (mk : A -> Backend.Filter)
  (test : A -> Product -> bool) :
  (forall a, o = Some a ->
     exists c, Backend.compile (mk a) = Ok c /\ forall r, c r = test a r) ->
  exists k, Backend.compile_all (Spec.maybe (option_map mk o)) = Ok k
            /\ forall r, k r = Spec.when o (fun a => test a r).
Proof.
  intros H. destruct o as [a |]; simpl.
  - destruct (H a eq_refl) as (c & -> & Hc). simpl.
    eexists. split; [reflexivity |].
    intros r. cbv beta. rewrite Hc. apply andb_true_r.
  - eexists. split; reflexivity.
Qed.

Lemma run_select_products db fs keep :
  Backend.compile_all fs = Ok keep ->
  Backend.run_select db (Backend.mkQuery "products" fs (Some ("created_at", false)))
  = Ok (Backend.sort_rows false (filter keep (Backend.products db))).
Proof.
  intros H. unfold Backend.run_select.
  cbn [Backend.table Backend.conds Backend.order].
  rewrite H. reflexivity.
Qed.

(** ** Patterns and substrings *)

Lemma text_app a b : Spec.text (a ++ b) = (Spec.text a ++ Spec.text b)%list.
Proof.
  unfold Spec.text. induction a as [| c a IH]; simpl.
  - reflexivity.
  - rewrite IH. reflexivity.
Qed.

Lemma special_false c :
  Spec.special c = false ->
  (c =? Backend.percent)%char = false
  /\ (c =? Backend.underscore)%char = false
  /\ (c =? Backend.backslash)%char = false
  /\ (c =? Backend.star)%char = false
  /\ (c =? Backend.comma)%char = false
  /\ Backend.quoting c = false.
Proof.
  unfold Spec.special. intros H.
  repeat (apply orb_false_iff in H; destruct H as [H ?]).
  repeat split; assumption.
Qed.

Lemma like_percent p s :
  Backend.like (Backend.percent :: p) s
  = Backend.like p s
    || match s with
       | [] => false
       | _ :: s' => Backend.like (Backend.percent :: p) s'
       end.
Proof. destruct s; reflexivity. Qed.

Lemma like_percent_only s : Backend.like [Backend.percent] s = true.
Proof.
  induction s as [| c s IH]; rewrite like_percent.
  - reflexivity.
  - rewrite IH. apply orb_true_r.
Qed.

Lemma like_char c p s :
  Spec.special c = false ->
  Backend.like (c :: p) s
  = match s with
    | [] => false
    | x :: s' => (Backend.lower c =? Backend.lower x)%char && Backend.like p s'
    end.
Proof.
  intros H. destruct (special_false c H) as (H1 & H2 & H3 & _).
  cbn [Backend.like]. rewrite H1, H2, H3. reflexivity.
Qed.

(** A text free of special characters, as a pattern followed by [%], matches
    what starts with it. *)
Lemma like_prefix x s :
  forallb (fun c => negb (Spec.special c)) x = true ->
  Backend.like (x ++ [Backend.percent])%list s = Spec.starts_with x s.
Proof.
  revert s. induction x as [| c x IH]; intros s H.
  - simpl app. rewrite like_percent_only. destruct s; reflexivity.
  - simpl in H. apply andb_true_iff in H as [Hc Hx].
    apply negb_true_iff in Hc.
    simpl app. rewrite (like_char c _ s Hc).
    destruct s as [| d s]; [reflexivity |].
    rewrite (IH s Hx). reflexivity.
Qed.

(** Between two [%], it matches what contains it. *)
Lemma like_contains x s :
  forallb (fun c => negb (Spec.special c)) x = true ->
  Backend.like (Backend.percent :: x ++ [Backend.percent])%list s = Spec.contains x s.
Proof.
  intros H. induction s as [| d s IH]; rewrite like_percent.
  - rewrite (like_prefix x [] H). destruct x; reflexivity.
  - rewrite (like_prefix x (d :: s) H), IH. reflexivity.
Qed.

Lemma starts_with_prefix x s :
  Spec.starts_with x s = true <->
  exists rest, Spec.fold_case s = (Spec.fold_case x ++ rest)%list.
Proof.
  revert s. induction x as [| c x IH]; intros s.
  - simpl. split; [intros _; eexists; reflexivity | reflexivity].
  - destruct s as [| d s]; simpl.
    + split; [discriminate | intros [rest H]; discriminate].
    + rewrite andb_true_iff, Ascii.eqb_eq, IH. split.
      * intros [-> [rest ->]]. exists rest. reflexivity.
      * intros [rest H]. injection H as -> H. split; [reflexivity |].
        exists rest. exact H.
Qed.

Lemma contains_occurs x s :
  Spec.contains x s = true <->
  exists a b, Spec.fold_case s = (a ++ Spec.fold_case x ++ b)%list.
Proof.
  induction s as [| d s IH].
  - simpl. rewrite orb_false_r, starts_with_prefix. split.
    + intros [rest H]. exists [], rest. exact H.
    + intros (a & b & H). destruct a as [| ? a]; [| discriminate].
      exists b. exact H.
  - simpl Spec.contains. rewrite orb_true_iff, starts_with_prefix, IH. split.
    + intros [[rest H] | (a & b & H)].
      * exists [], rest. exact H.
      * exists (Backend.lower d :: a), b. simpl. rewrite H. reflexivity.
    + intros (a & b & H). destruct a as [| e a].
      * left. exists b. exact H.
      * right. simpl in H. injection H as _ H. exists a, b. exact H.
Qed.

Lemma found_occurs x r :
  Spec.found x r = true <->
  Spec.occurs x (Product.name r) \/ Spec.occurs x (Product.description r).
Proof.
  unfold Spec.found, Spec.occurs.
  rewrite orb_true_iff, !contains_occurs. reflexivity.
Qed.

(** ** The text given to [or] *)

Lemma split_on_single sep l :
  forallb (fun c => negb (c =? sep)%char) l = true ->
  Backend.split_on sep l = [l].
Proof.
  induction l as [| c l IH]; simpl; intros H.
  - reflexivity.
  - apply andb_true_iff in H as [Hc Hl]. apply negb_true_iff in Hc.
    rewrite Hc, (IH Hl). reflexivity.
Qed.

Lemma split_on_app sep a b :
  forallb (fun c => negb (c =? sep)%char) a = true ->
  Backend.split_on sep (a ++ sep :: b) = a :: Backend.split_on sep b.
Proof.
  induction a as [| c a IH]; simpl; intros H.
  - rewrite Ascii.eqb_refl. reflexivity.
  - apply andb_true_iff in H as [Hc Ha]. apply negb_true_iff in Hc.
    rewrite Hc, (IH Ha). reflexivity.
Qed.

Lemma break_at_app sep a b :
  forallb (fun c => negb (c =? sep)%char) a = true ->
  Backend.break_at sep (a ++ sep :: b) = Some (a, b).
Proof.
  induction a as [| c a IH]; simpl; intros H.
  - rewrite Ascii.eqb_refl. reflexivity.
  - apply andb_true_iff in H as [Hc Ha]. apply negb_true_iff in Hc.
    rewrite Hc, (IH Ha). reflexivity.
Qed.

Lemma harmless_value v :
  Forall Spec.harmless v ->
  existsb Backend.quoting v = false
  /\ Backend.ilike_pattern v = v
  /\ Backend.pattern_ok v = true.
Proof.
  induction 1 as [| c v (Hq & Hs & Hb) Hv (IH1 & IH2 & IH3)].
  - repeat split.
  - unfold Backend.ilike_pattern in *.
    cbn [existsb map Backend.pattern_ok].
    rewrite Hq, Hs, Hb, IH1, IH2, IH3. repeat split.
Qed.

Lemma compile_condition_ilike column get v :
  forallb (fun c => negb (c =? Backend.dot)%char) (Spec.text column) = true ->
  Backend.text_column column = Some get ->
  Forall Spec.harmless v ->
  Backend.compile_condition
    (Spec.text column ++ Backend.dot :: Spec.text "ilike" ++ Backend.dot :: v)
  = Ok (fun r => Backend.like v (list_ascii_of_string (get r))).
Proof.
  intros Hcol Hget Hv.
  destruct (harmless_value v Hv) as (Hq & Hp & Hok).
  unfold Backend.compile_condition.
  rewrite (break_at_app _ _ _ Hcol).
  rewrite (break_at_app Backend.dot (Spec.text "ilike") v eq_refl).
  unfold Spec.text at 1.
  rewrite !string_of_list_ascii_of_string.
  rewrite Hq, Hp, Hok, Hget. reflexivity.
Qed.

Lemma plain_chars x :
  Spec.plain x = true ->
  forallb (fun c => negb (Spec.special c)) (Spec.text x) = true
  /\ forallb (fun c => negb (c =? Backend.comma)%char) (Spec.text x) = true
  /\ Forall Spec.harmless (Spec.text x).
Proof.
  unfold Spec.plain. intros H. split; [exact H |].
  induction (Spec.text x) as [| c l IH]; simpl in *.
  - split; [reflexivity | constructor].
  - apply andb_true_iff in H as [Hc Hl]. apply negb_true_iff in Hc.
    destruct (special_false c Hc) as (_ & _ & Hb & Hs & Hcm & Hq).
    destruct (IH Hl) as (IH1 & IH2).
    rewrite Hcm, IH1. split; [reflexivity |].
    constructor; [repeat split; assumption | exact IH2].
Qed.

Lemma harmless_percent : Spec.harmless Backend.percent.
Proof. repeat split. Qed.

(** The text built for a search free of special characters is read as the
    search for it in the name or in the description. *)
Lemma compile_search x :
  Spec.plain x = true ->
  exists c, Backend.compile (Backend.q_or (productService.search_filter x)) = Ok c
            /\ forall r, c r = Spec.found x r.
Proof.
  intros Hx. destruct (plain_chars x Hx) as (Hplain & Hcomma & Hharm).
  assert (Hv : Forall Spec.harmless
                 (Backend.percent :: Spec.text x ++ [Backend.percent])%list).
  { constructor; [apply harmless_percent |].
    apply Forall_app. split; [exact Hharm |].
    constructor; [apply harmless_percent | constructor]. }
  unfold Backend.compile, productService.search_filter.
  fold (Spec.text ("name.ilike.%" ++ x ++ "%,description.ilike.%" ++ x ++ "%")).
  rewrite !text_app.
  replace (Spec.text "name.ilike.%" ++ Spec.text x
           ++ Spec.text "%,description.ilike.%" ++ Spec.text x ++ Spec.text "%")%list
    with ((Spec.text "name" ++ Backend.dot :: Spec.text "ilike" ++ Backend.dot
             :: Backend.percent :: Spec.text x ++ [Backend.percent])
          ++ Backend.comma
          :: (Spec.text "description" ++ Backend.dot :: Spec.text "ilike"
                ++ Backend.dot
                :: Backend.percent :: Spec.text x ++ [Backend.percent]))%list.
  2:{ change (Spec.text "name.ilike.%")
        with (Spec.text "name" ++ Backend.dot :: Spec.text "ilike"
                ++ [Backend.dot; Backend.percent])%list.
      change (Spec.text "%,description.ilike.%")
        with ([Backend.percent; Backend.comma] ++ Spec.text "description"
                ++ Backend.dot :: Spec.text "ilike"
                ++ [Backend.dot; Backend.percent])%list.
      change (Spec.text "%") with [Backend.percent].
      repeat (rewrite <- ?app_assoc, <- ?app_comm_cons).
      reflexivity. }
  rewrite split_on_app.
  2:{ repeat (rewrite !forallb_app; cbn [forallb]). rewrite Hcomma.
      reflexivity. }
  rewrite split_on_single.
  2:{ repeat (rewrite !forallb_app; cbn [forallb]). rewrite Hcomma.
      reflexivity. }
  cbn [Backend.compile_any].
  rewrite (compile_condition_ilike "name" Product.name _ eq_refl eq_refl Hv).
  rewrite (compile_condition_ilike "description" Product.description _
             eq_refl eq_refl Hv).
  cbn [bind]. eexists. split; [reflexivity |].
  intros r. cbv beta. unfold Spec.found.
  fold (Spec.text (Product.name r)). fold (Spec.text (Product.description r)).
  rewrite !(like_contains _ _ Hplain). rewrite orb_false_r. reflexivity.
Qed.

(** ** What [getProducts] returns *)

Lemma compile_expected_filters f :
  Spec.when (ProductFilter.searchQuery f) Spec.plain = true ->
  exists keep, Backend.compile_all (Spec.expected_filters f) = Ok keep
               /\ forall r, keep r = Spec.satisfies f r.
Proof.
  intros Hplain. unfold Spec.expected_filters.
  destruct (compile_all_maybe (Spec.nonempty (ProductFilter.category f))
              (Backend.q_eq "category")
              (fun c r => (Product.category r =? c)%string))
    as (k1 & E1 & H1).
  { intros c _. eexists. split; reflexivity. }
  destruct (compile_all_maybe (ProductFilter.minPrice f) (Backend.q_gte "price")
              (fun v r => JS.ge (Product.price r) v))
    as (k2 & E2 & H2).
  { intros v _. eexists. split; reflexivity. }
  destruct (compile_all_maybe (ProductFilter.maxPrice f) (Backend.q_lte "price")
              (fun v r => JS.le (Product.price r) v))
    as (k3 & E3 & H3).
  { intros v _. eexists. split; reflexivity. }
  destruct (compile_all_maybe (ProductFilter.minRating f) (Backend.q_gte "rating")
              (fun v r => JS.ge (Product.rating r) v))
    as (k4 & E4 & H4).
  { intros v _. eexists. split; reflexivity. }
  destruct (compile_all_maybe (Spec.nonempty (ProductFilter.searchQuery f))
              (fun x => Backend.q_or (productService.search_filter x))
              (fun x r => Spec.found x r))
    as (k5 & E5 & H5).
  { intros x Hx. apply compile_search.
    destruct (ProductFilter.searchQuery f) as [y |]; simpl in *; [| discriminate].
    destruct (JS.truthy y); [| discriminate].
    injection Hx as <-. exact Hplain. }
  destruct (compile_all_app _ _ _ _ E4 E5) as (k45 & E45 & H45).
  destruct (compile_all_app _ _ _ _ E3 E45) as (k345 & E345 & H345).
  destruct (compile_all_app _ _ _ _ E2 E345) as (k2345 & E2345 & H2345).
  destruct (compile_all_app _ _ _ _ E1 E2345) as (k & E & H).
  exists k. split; [exact E |].
  intros r. unfold Spec.satisfies.
  rewrite H, H2345, H345, H45, H1, H2, H3, H4, H5.
  rewrite !andb_assoc. reflexivity.
Qed.

Lemma getProducts_selects db filters :
  Spec.plain_search filters = true ->
  productService.getProducts db filters
  = Ok (Backend.sort_rows false
          (filter (Spec.selected filters) (Backend.products db))).
Proof.
  intros Hplain. unfold productService.getProducts.
  rewrite getProducts_query_shape.
  destruct filters as [f |].
  - destruct (compile_expected_filters f Hplain) as (keep & E & H).
    rewrite (run_select_products db _ keep E). simpl.
    rewrite (filter_ext keep (Spec.satisfies f) H). reflexivity.
  - rewrite (run_select_products db [] (fun _ => true) eq_refl). reflexivity.
Qed.

(** C1, as the code has it.  For every optional filter whose search text, if
    any, has none of the characters [% _ \ * , . : ( )] and no double quote,
    [getProducts] succeeds and returns exactly the stored products satisfying
    the conjunction of the filter's fields: category equality, price at least
    [minPrice] and at most [maxPrice], rating at least [minRating], and the
    search text occurring, letter case ignored, in the name or in the
    description.  An absent field constrains nothing, and neither does a
    category or a search text that is the empty string.  The rows come
    newest first. *)
Theorem getProducts_selected_newest_first :
  forall db filters,
    Spec.plain_search filters = true ->
    exists rows,
      productService.getProducts db filters = Ok rows
      /\ Permutation rows (filter (Spec.selected filters) (Backend.products db))
      /\ (forall r, In r rows <->
                    In r (Backend.products db) /\ Spec.selected filters r = true)
      /\ Spec.newest_first rows
      /\ (forall x r, Spec.found x r = true <->
                      Spec.occurs x (Product.name r)
                      \/ Spec.occurs x (Product.description r)).
Proof.
  intros db filters Hplain. eexists.
  split; [apply (getProducts_selects db filters Hplain) |].
  split; [apply sort_rows_perm |].
  split.
  - intros r. rewrite <- filter_In. split.
    + apply Permutation_in, sort_rows_perm.
    + apply Permutation_in, Permutation_sym, sort_rows_perm.
  - split; [apply sort_rows_newest_first | apply found_occurs].
Qed.

Lemma getProducts_selected_newest_first_witness :
  exists rows,
    productService.getProducts Sample.shelf (Some (Sample.search "A")) = Ok rows
    /\ Permutation rows (Backend.products Sample.shelf).
Proof.
  destruct (getProducts_selected_newest_first Sample.shelf
              (Some (Sample.search "A")) eq_refl)
    as (rows & H & Hperm & _).
  exists rows. split; [exact H | exact Hperm].
Defined.

(** C1, as stated, fails: a category present as the empty string is not
    compared with the records.  Every one of the five books is returned,
    none of which has the empty category. *)
Lemma getProducts_empty_category_not_applied :
  let f := ProductFilter.mk (Some "") None None None None in
  exists rows,
    productService.getProducts Sample.shop (Some f) = Ok rows
    /\ List.length rows = 5%nat
    /\ filter (Spec.satisfies_all_present f) (Backend.products Sample.shop) = [].
Proof.
  eexists. split; [vm_compute; reflexivity |]. split; reflexivity.
Qed.

(** C2, as the code has it.  The filter [{category: "Books", minPrice: 10,
    maxPrice: 20, minRating: 4}] on the five books priced 5, 12, 18, 25, 15
    and rated 3, 4.5, 5, 2, 4 yields exactly the three records priced 12, 18
    and 15, whatever their identifiers, names, descriptions and dates, newest
    first. *)
Theorem getProducts_books_example :
  forall (l1 l2 l3 l4 l5 : Sample.Label) (n : nat) (t : Z),
  exists rows,
    productService.getProducts
      (Backend.mkDB (Sample.five_books l1 l2 l3 l4 l5) n t)
      (Some Sample.books_filter)
    = Ok rows
    /\ Permutation rows
         [ Sample.labelled l2 (Sample.int 12) (Sample.dec 45 10);
           Sample.labelled l3 (Sample.int 18) (Sample.int 5);
           Sample.labelled l5 (Sample.int 15) (Sample.int 4) ]
    /\ Spec.newest_first rows.
Proof.
  intros l1 l2 l3 l4 l5 n t. eexists.
  split; [apply getProducts_selects; reflexivity |].
  split; [| apply sort_rows_newest_first].
  apply sort_rows_perm.
Qed.

(** C2, as stated, fails: the book priced 18 and rated 5 passes the filter
    too, so three records come back, not two. *)
Lemma books_filter_returns_three_records :
  exists rows,
    productService.getProducts Sample.shop (Some Sample.books_filter) = Ok rows
    /\ map Product.price rows = [Sample.int 15; Sample.int 18; Sample.int 12]
    /\ map Product.rating rows = [Sample.int 4; Sample.int 5; Sample.dec 45 10]
    /\ List.length rows <> 2%nat.
Proof.
  eexists. split; [vm_compute; reflexivity |].
  split; [reflexivity |]. split; [reflexivity | discriminate].
Qed.

(** C3 fails on the code.  The search text is put in the pattern as it is:
    searching for an underscore returns both records of the shelf, neither of
    which has an underscore in its name or description; searching for [a,b]
    throws, although the second record is named [a,b]. *)
Theorem getProducts_search_special_characters :
  productService.getProducts Sample.shelf (Some (Sample.search "_"))
  = Ok (rev (Backend.products Sample.shelf))
  /\ Forall (fun r => Spec.found "_" r = false) (Backend.products Sample.shelf)
  /\ productService.getProducts Sample.shelf (Some (Sample.search "a,b"))
     = Err "Couldn't fetch products: failed to parse logic tree"
  /\ Exists (fun r => Spec.found "a,b" r = true) (Backend.products Sample.shelf).
Proof.
  split; [vm_compute; reflexivity |].
  split; [repeat constructor |].
  split; [vm_compute; reflexivity |].
  apply Exists_cons_tl, Exists_cons_hd. reflexivity.
Qed.

(** ** The product list *)

Lemma refreshProductList_eq s :
  ProductList.refreshProductList s
  = match productService.getProducts (ProductList.db s)
            (Some (ProductList.val (ProductList.filters s))) with
    | Ok rows =>
        ProductList.mkState rows false None
          (ProductList.filters s) (ProductList.showAddModal s)
          (ProductList.editingProduct s) (ProductList.deletingId s)
          (ProductList.tempFilters s) (ProductList.db s) (ProductList.now s)
          (ProductList.fresh s)
          (ProductList.log s
           ++ [call_getProducts (Some (ProductList.val (ProductList.filters s)))])
    | Err m =>
        ProductList.mkState (ProductList.products s) false (Some m)
          (ProductList.filters s) (ProductList.showAddModal s)
          (ProductList.editingProduct s) (ProductList.deletingId s)
          (ProductList.tempFilters s) (ProductList.db s) (ProductList.now s)
          (ProductList.fresh s)
          (ProductList.log s
           ++ [call_getProducts (Some (ProductList.val (ProductList.filters s)))])
    end.
Proof.
  unfold ProductList.refreshProductList.
  cbn [ProductList.set_loading ProductList.called ProductList.set_log
       ProductList.db ProductList.filters ProductList.log].
  destruct (productService.getProducts _ _); reflexivity.
Qed.

Lemma deleteProduct_ok db productId :
  productService.deleteProduct db productId
  = Ok (Backend.mkDB
          (filter (fun r => negb ((Product.id r =? productId)%string && true))
                  (Backend.products db))
          (Backend.next_id db) (Backend.server_time db)).
Proof. reflexivity. Qed.

Lemma handleProductRemoval_eq productId s :
  ProductList.handleProductRemoval productId true s
  = ProductList.mkState (Spec.removed productId (ProductList.products s))
      (ProductList.loading s) None
      (ProductList.filters s) (ProductList.showAddModal s)
      (ProductList.editingProduct s) None
      (ProductList.tempFilters s)
      (Backend.mkDB
         (filter (fun r => negb ((Product.id r =? productId)%string && true))
                 (Backend.products (ProductList.db s)))
         (Backend.next_id (ProductList.db s))
         (Backend.server_time (ProductList.db s)))
      (ProductList.now s) (ProductList.fresh s)
      (ProductList.log s ++ [call_deleteProduct productId]).
Proof. reflexivity. Qed.

Lemma fetches_app l1 l2 :
  ProductList.fetches (l1 ++ l2)
  = ProductList.fetches l1 ++ ProductList.fetches l2.
Proof. apply flat_map_app. Qed.

(** A submission that succeeds made one call, a creation or an update, and
    nothing else. *)
Lemma handleSubmit_succeeded now db product d :
  ProductForm.succeeded (ProductForm.handleSubmit now db product d) = true ->
  ProductForm.checkFormValidity d = None
  /\ exists c r,
       ProductForm.calls (ProductForm.handleSubmit now db product d) = [c]
       /\ ProductList.fetches [c] = []
       /\ ProductForm.stored (ProductForm.handleSubmit now db product d) = Some r.
Proof.
  unfold ProductForm.handleSubmit.
  destruct (ProductForm.checkFormValidity d); [discriminate |].
  intros H. split; [reflexivity |].
  destruct product as [p |]; [destruct (JS.truthy (Product.id p)) |].
  - destruct (productService.updateProduct _ _ _) as [[db' r] | m];
      [| discriminate].
    eexists _, _. repeat split.
  - destruct (productService.createProduct _ _ _) as [[db' r] | m];
      [| discriminate].
    eexists _, _. repeat split.
  - destruct (productService.createProduct _ _ _) as [[db' r] | m];
      [| discriminate].
    eexists _, _. repeat split.
Qed.

Lemma submitForm_succeeded d s :
  ProductForm.succeeded
    (ProductForm.handleSubmit (ProductList.now s) (ProductList.db s)
       (ProductList.editingProduct s) d) = true ->
  ProductList.submitForm d s
  = ProductList.onClose
      (ProductList.refreshProductList
         (ProductList.set_db
            (ProductForm.db_after
               (ProductForm.handleSubmit (ProductList.now s) (ProductList.db s)
                  (ProductList.editingProduct s) d))
            (ProductList.set_log
               (ProductList.log s
                ++ ProductForm.calls
                     (ProductForm.handleSubmit (ProductList.now s)
                        (ProductList.db s) (ProductList.editingProduct s) d))
               s))).
Proof.
  intros H. unfold ProductList.submitForm. rewrite H. reflexivity.
Qed.

(** C5, as the code has it.  After a creation or an update that succeeds, the
    list shown is fetched anew: one [getProducts] call with the committed
    filter is added, and when it succeeds its rows, read from the backend as
    the mutation left it, are the list shown.  After a deletion that succeeds
    there is no fetch: the list shown is the previous one without the records
    having the deleted identifier. *)
Theorem mutation_refresh :
  forall s : ProductList.State,
    (forall d,
        let submission :=
          ProductForm.handleSubmit (ProductList.now s) (ProductList.db s)
            (ProductList.editingProduct s) d in
        ProductForm.succeeded submission = true ->
        let s' := ProductList.step (ProductList.FormSubmitted d) s in
        ProductList.fetches (ProductList.log s')
        = ProductList.fetches (ProductList.log s)
          ++ [Some (ProductList.val (ProductList.filters s))]
        /\ ProductList.db s' = ProductForm.db_after submission
        /\ ProductList.filters s' = ProductList.filters s
        /\ forall rows,
             productService.getProducts (ProductForm.db_after submission)
               (Some (ProductList.val (ProductList.filters s))) = Ok rows ->
             ProductList.products s' = rows)
    /\ (forall productId,
           let s' := ProductList.step (ProductList.DeleteClicked productId true) s in
           ProductList.log s' = ProductList.log s ++ [call_deleteProduct productId]
           /\ ProductList.fetches (ProductList.log s')
              = ProductList.fetches (ProductList.log s)
           /\ ProductList.products s'
              = Spec.removed productId (ProductList.products s)
           /\ productService.deleteProduct (ProductList.db s) productId
              = Ok (ProductList.db s')).
Proof.
  intros s. split.
  - intros d submission Hok s'.
    destruct (handleSubmit_succeeded _ _ _ _ Hok) as (_ & c & r & Hc & Hf & _).
    unfold s'. cbn [ProductList.step].
    rewrite (submitForm_succeeded d s Hok). fold submission.
    fold submission in Hc. rewrite Hc.
    rewrite refreshProductList_eq.
    cbn [ProductList.set_db ProductList.set_log ProductList.db
         ProductList.filters ProductList.log ProductList.products
         ProductList.showAddModal ProductList.editingProduct
         ProductList.deletingId ProductList.tempFilters ProductList.now
         ProductList.fresh].
    destruct (productService.getProducts (ProductForm.db_after submission) _)
      as [rows | m];
      cbn [ProductList.onClose ProductList.set_editingProduct
           ProductList.set_showAddModal ProductList.log ProductList.db
           ProductList.filters ProductList.products];
      rewrite !fetches_app, Hf, app_nil_r;
      repeat split; try reflexivity; intros rows' [= <-]; reflexivity || discriminate.
  - intros productId s'. unfold s'. cbn [ProductList.step].
    rewrite handleProductRemoval_eq.
    cbn [ProductList.log ProductList.products ProductList.db].
    rewrite fetches_app, deleteProduct_ok. cbn [ProductList.fetches flat_map].
    rewrite app_nil_r. repeat split.
Qed.

Lemma mutation_refresh_witness :
  let s := ProductList.mount Sample.shop 0 in
  let s' := ProductList.step (ProductList.FormSubmitted Sample.details) s in
  ProductList.fetches (ProductList.log s')
  = ProductList.fetches (ProductList.log s)
    ++ [Some (ProductList.val (ProductList.filters s))].
Proof.
  intros s s'.
  destruct (mutation_refresh s) as (Hsubmit & _).
  destruct (Hsubmit Sample.details eq_refl) as (H & _).
  exact H.
Defined.

(** C5, as stated, fails for deletions: after the first of the five books is
    deleted, the only fetch on record is still the one made on mount. *)
Lemma deletion_not_refetched :
  let s := ProductList.mount Sample.shop 0 in
  let s' := ProductList.step (ProductList.DeleteClicked "1" true) s in
  productService.deleteProduct (ProductList.db s) "1" = Ok (ProductList.db s')
  /\ ~ Spec.refetched s s'
  /\ ProductList.products s' = Spec.removed "1" (ProductList.products s).
Proof.
  intros s s'. split; [reflexivity |]. split; [| reflexivity].
  intros [f H]. vm_compute in H. discriminate.
Qed.

(** ** The two filters *)

Lemma refreshProductList_frame s :
  ProductList.filters (ProductList.refreshProductList s) = ProductList.filters s
  /\ ProductList.tempFilters (ProductList.refreshProductList s)
     = ProductList.tempFilters s
  /\ ProductList.fresh (ProductList.refreshProductList s) = ProductList.fresh s.
Proof.
  rewrite refreshProductList_eq.
  destruct (productService.getProducts _ _); repeat split.
Qed.

Lemma submitForm_frame d s :
  ProductList.filters (ProductList.submitForm d s) = ProductList.filters s
  /\ ProductList.tempFilters (ProductList.submitForm d s)
     = ProductList.tempFilters s
  /\ ProductList.fresh (ProductList.submitForm d s) = ProductList.fresh s.
Proof.
  unfold ProductList.submitForm.
  destruct (ProductForm.succeeded _); [| repeat split].
  unfold ProductList.onClose, ProductList.onSuccess.
  cbn [ProductList.set_editingProduct ProductList.set_showAddModal
       ProductList.filters ProductList.tempFilters ProductList.fresh].
  match goal with
  | |- context [ProductList.refreshProductList ?x] =>
      destruct (refreshProductList_frame x) as (-> & -> & ->)
  end.
  repeat split.
Qed.

Lemma handleProductRemoval_frame productId userConfirmed s :
  let s' := ProductList.handleProductRemoval productId userConfirmed s in
  ProductList.filters s' = ProductList.filters s
  /\ ProductList.tempFilters s' = ProductList.tempFilters s
  /\ ProductList.fresh s' = ProductList.fresh s.
Proof.
  destruct userConfirmed; [| repeat split].
  cbv zeta. rewrite handleProductRemoval_eq. repeat split.
Qed.

(** Only [applyFilters] touches the committed filter. *)
Lemma step_keeps_filters e s :
  e <> ProductList.ApplyClicked ->
  ProductList.filters (ProductList.step e s) = ProductList.filters s.
Proof.
  intros He. destruct e; cbn [ProductList.step ProductList.edit_patch];
    try reflexivity.
  - contradiction.
  - apply handleProductRemoval_frame.
  - apply submitForm_frame.
Qed.

Lemma applyFilters_changed s :
  ProductList.addr (ProductList.tempFilters s)
  <> ProductList.addr (ProductList.filters s) ->
  ProductList.applyFilters s
  = ProductList.refreshProductList
      (ProductList.set_filters (ProductList.tempFilters s) s).
Proof.
  intros H. unfold ProductList.applyFilters.
  apply Nat.eqb_neq in H. rewrite H. reflexivity.
Qed.

Lemma applyFilters_unchanged s :
  ProductList.addr (ProductList.tempFilters s)
  = ProductList.addr (ProductList.filters s) ->
  ProductList.applyFilters s = s.
Proof.
  intros H. unfold ProductList.applyFilters.
  apply Nat.eqb_eq in H. rewrite H. reflexivity.
Qed.

Lemma applyFilters_aligns s :
  ProductList.addr (ProductList.tempFilters (ProductList.applyFilters s))
  = ProductList.addr (ProductList.filters (ProductList.applyFilters s)).
Proof.
  unfold ProductList.applyFilters.
  destruct (Nat.eqb_spec (ProductList.addr (ProductList.tempFilters s))
                         (ProductList.addr (ProductList.filters s))) as [E | E].
  - exact E.
  - destruct (refreshProductList_frame
                (ProductList.set_filters (ProductList.tempFilters s) s))
      as (-> & -> & _).
    reflexivity.
Qed.

Lemma step_allocated e s : Spec.allocated s -> Spec.allocated (ProductList.step e s).
Proof.
  unfold Spec.allocated. intros [Hf Ht].
  destruct e; cbn [ProductList.step ProductList.edit_patch];
    try (unfold ProductList.handleFilter; simpl; lia);
    try (simpl; lia).
  - unfold ProductList.applyFilters.
    destruct (_ =? _)%nat; [auto |].
    destruct (refreshProductList_frame
                (ProductList.set_filters (ProductList.tempFilters s) s))
      as (-> & -> & ->).
    simpl. lia.
  - destruct (handleProductRemoval_frame productId userConfirmed s)
      as (-> & -> & ->). auto.
  - destruct (submitForm_frame productDetails s) as (-> & -> & ->). auto.
Qed.

Lemma reachable_allocated s : Spec.reachable s -> Spec.allocated s.
Proof.
  intros (db & now & es & ->).
  unfold ProductList.run. rewrite <- fold_left_rev_right.
  induction (rev es) as [| e l IH]; simpl.
  - unfold ProductList.mount, Spec.allocated.
    destruct (refreshProductList_frame (ProductList.initial db now))
      as (-> & -> & ->).
    simpl. lia.
  - apply step_allocated, IH.
Qed.

(** C8, as the code has it.  An edit of a filter control changes the draft
    filter alone, merging the edited field into it, and calls no service.
    No event but the apply action changes the committed filter.  An apply
    action on a draft that is another object than the committed filter (the
    first apply after mount, and any apply that follows an edit) makes the
    draft the committed filter and issues exactly one [getProducts] call,
    with that filter, whose rows, when it succeeds, become the list shown.
    An apply action on the object already committed (an apply repeated with
    no edit since the last one) changes nothing and fetches nothing. *)
Theorem draft_and_committed_filters :
  forall s : ProductList.State,
    (forall e p,
        ProductList.edit_patch e = Some p ->
        let s' := ProductList.step e s in
        s' = ProductList.set_fresh (S (ProductList.fresh s))
               (ProductList.set_tempFilters
                  (ProductList.mkObj (ProductList.fresh s)
                     (ProductList.merge
                        (ProductList.val (ProductList.tempFilters s)) p))
                  s)
        /\ ProductList.val (ProductList.tempFilters s')
           = ProductList.merge (ProductList.val (ProductList.tempFilters s)) p
        /\ ProductList.log s' = ProductList.log s
        /\ ProductList.filters s' = ProductList.filters s
        /\ ProductList.products s' = ProductList.products s
        /\ ProductList.db s' = ProductList.db s)
    /\ (forall e,
           e <> ProductList.ApplyClicked ->
           ProductList.filters (ProductList.step e s) = ProductList.filters s)
    /\ (ProductList.addr (ProductList.tempFilters s)
        <> ProductList.addr (ProductList.filters s) ->
        let s' := ProductList.step ProductList.ApplyClicked s in
        let committed := ProductList.val (ProductList.tempFilters s) in
        ProductList.filters s' = ProductList.tempFilters s
        /\ ProductList.log s'
           = ProductList.log s ++ [call_getProducts (Some committed)]
        /\ forall rows,
             productService.getProducts (ProductList.db s) (Some committed)
             = Ok rows ->
             ProductList.products s' = rows)
    /\ (ProductList.addr (ProductList.tempFilters s)
        = ProductList.addr (ProductList.filters s) ->
        ProductList.step ProductList.ApplyClicked s = s)
    /\ (Spec.reachable s ->
        forall e p,
          ProductList.edit_patch e = Some p ->
          ProductList.addr (ProductList.tempFilters (ProductList.step e s))
          <> ProductList.addr (ProductList.filters (ProductList.step e s)))
    /\ ProductList.addr
         (ProductList.tempFilters (ProductList.step ProductList.ApplyClicked s))
       = ProductList.addr
           (ProductList.filters (ProductList.step ProductList.ApplyClicked s))
    /\ (forall db now,
           ProductList.addr (ProductList.tempFilters (ProductList.mount db now))
           <> ProductList.addr (ProductList.filters (ProductList.mount db now))).
Proof.
  intros s.
  assert (Edit : forall e p, ProductList.edit_patch e = Some p ->
                             ProductList.step e s = ProductList.handleFilter p s).
  { intros e p H. destruct e; simpl in H; try discriminate;
      injection H as <-; reflexivity. }
  split.
  { intros e p H s'. unfold s'. rewrite (Edit e p H). repeat split. }
  split.
  { intros e He. apply step_keeps_filters, He. }
  split.
  { intros Hneq s' committed. unfold s'. cbn [ProductList.step].
    rewrite (applyFilters_changed s Hneq), refreshProductList_eq.
    cbn [ProductList.set_filters ProductList.db ProductList.filters
         ProductList.log].
    fold committed.
    destruct (productService.getProducts (ProductList.db s) (Some committed))
      as [rows | m]; repeat split; intros rows' [= <-]; reflexivity. }
  split.
  { intros Heq. apply applyFilters_unchanged, Heq. }
  split.
  { intros Hs e p H. rewrite (Edit e p H).
    destruct (reachable_allocated s Hs) as [Hf _].
    unfold ProductList.handleFilter. simpl. lia. }
  split.
  { apply applyFilters_aligns. }
  intros db now. unfold ProductList.mount.
  destruct (refreshProductList_frame (ProductList.initial db now))
    as (-> & -> & _).
  simpl. lia.
Qed.

Lemma draft_and_committed_filters_witness :
  let s := ProductList.mount Sample.shelf 0 in
  let e := ProductList.SearchChanged "a" in
  ProductList.log (ProductList.step e s) = ProductList.log s
  /\ ProductList.log (ProductList.step ProductList.ApplyClicked (ProductList.step e s))
     = ProductList.log s ++ [call_getProducts (Some (Sample.search "a"))].
Proof.
  intros s e.
  destruct (draft_and_committed_filters s) as (Hedit & _).
  destruct (Hedit e _ eq_refl) as (_ & _ & Hlog & _).
  split; [exact Hlog |].
  destruct (draft_and_committed_filters (ProductList.step e s))
    as (_ & _ & Happly & _).
  assert (Hneq : ProductList.addr (ProductList.tempFilters (ProductList.step e s))
                 <> ProductList.addr (ProductList.filters (ProductList.step e s))).
  { vm_compute. discriminate. }
  destruct (Happly Hneq) as (_ & H & _).
  rewrite H, Hlog. reflexivity.
Defined.

(** C8, as stated, fails: an apply action repeated with no edit in between
    triggers no fetch.  After mount and one apply, a second apply leaves the
    state as it is, with the two fetches made so far. *)
Lemma second_apply_fetches_nothing :
  let s := ProductList.step ProductList.ApplyClicked
             (ProductList.mount Sample.shop 0) in
  let s' := ProductList.step ProductList.ApplyClicked s in
  s' = s
  /\ ~ Spec.refetched s s'
  /\ List.length (ProductList.fetches (ProductList.log s')) = 2%nat.
Proof.
  intros s s'. split; [vm_compute; reflexivity |].
  split; [| vm_compute; reflexivity].
  intros [f H]. vm_compute in H. discriminate.
Qed.

(** ** Submission *)






(** * Further properties *)

(** ** Lookup, update and deletion by identifier *)


Lemma filter_swap {A : Type} (p q : A -> bool) (l : list A) :
  filter p (filter q l) = filter q (filter p l).
Proof.
  induction l as [| x l IH]; simpl.
  - reflexivity.
  - destruct (p x) eqn:Hp, (q x) eqn:Hq; simpl; rewrite ?Hp, ?Hq, IH;
      reflexivity.
Qed.


Lemma getProductById_rows db i :
  productService.getProductById db i
  = match Spec.rows_with_id i db with
    | [r] => Ok r
    | _ => Err (("Product " ++ i ++ " not found: ") ++ Notions.not_single)%string
    end.
Proof.
  unfold productService.getProductById, Backend.run_select, Spec.rows_with_id.
  cbn [Backend.add Backend.select_from Backend.table Backend.conds
       Backend.order app].
  simpl String.eqb.
  cbn [negb Backend.compile_all Backend.compile].
  change (Backend.text_column "id") with (Some Product.id).
  cbn [bind].
  rewrite (filter_ext (fun r => (Product.id r =? i)%string && true)
                      (fun r => (Product.id r =? i)%string)
                      (fun r => andb_true_r _)).
  destruct (filter _ (Backend.products db)) as [| r [| r' l]]; reflexivity.
Qed.

(** [getProductById] returns a record exactly when one stored record, and
    one only, has the identifier; otherwise it throws, naming the identifier
    in the message. *)
Theorem getProductById_exactly_one :
  forall db i,
    (forall r, productService.getProductById db i = Ok r
               <-> Spec.rows_with_id i db = [r])
    /\ (forall m, productService.getProductById db i = Err m ->
          m = (("Product " ++ i ++ " not found: ") ++ Notions.not_single)%string
          /\ List.length (Spec.rows_with_id i db) <> 1%nat).
Proof.
  intros db i. rewrite getProductById_rows.
  destruct (Spec.rows_with_id i db) as [| r0 [| r1 l]]; split.
  - intros r. split; discriminate.
  - intros m [= <-]. split; [reflexivity | discriminate].
  - intros r. split; intros [= <-]; reflexivity.
  - intros m H. discriminate.
  - intros r. split; discriminate.
  - intros m [= <-]. split; [reflexivity | discriminate].
Qed.



Lemma rows_with_id_removed i db :
  Spec.rows_with_id i
    (Backend.mkDB
       (filter (fun r => negb ((Product.id r =? i)%string && true))
               (Backend.products db))
       (Backend.next_id db) (Backend.server_time db))
  = [].
Proof.
  unfold Spec.rows_with_id. cbn [Backend.products].
  induction (Backend.products db) as [| x l IH]; simpl.
  - reflexivity.
  - destruct (Product.id x =? i)%string eqn:E; simpl.
    + exact IH.
    + rewrite E. exact IH.
Qed.


(** A [deleteProduct] that succeeds has removed every record with the
    identifier and kept the others in their order; afterwards
    [getProductById] on that identifier throws, and a table that had no such
    record has its records unchanged. *)
Theorem deleteProduct_success_removes :
  forall db i db',
    productService.deleteProduct db i = Ok db' ->
    Backend.products db' = Spec.removed i (Backend.products db)
    /\ Spec.rows_with_id i db' = []
    /\ productService.getProductById db' i
       = Err (("Product " ++ i ++ " not found: ") ++ Notions.not_single)%string
    /\ (Spec.rows_with_id i db = [] ->
        Backend.products db' = Backend.products db).
Proof.
  intros db i db'. rewrite deleteProduct_ok. intros [= <-].
  split.
  { cbn [Backend.products]. unfold Spec.removed.
    apply filter_ext. intros r. rewrite andb_true_r. reflexivity. }
  split; [apply rows_with_id_removed |].
  split.
  { rewrite getProductById_rows, rows_with_id_removed. reflexivity. }
  unfold Spec.rows_with_id. cbn [Backend.products]. intros H.
  induction (Backend.products db) as [| x l IH]; simpl in *.
  - reflexivity.
  - destruct (Product.id x =? i)%string; simpl; [discriminate |].
    rewrite (IH H). reflexivity.
Qed.

Lemma deleteProduct_success_removes_witness :
  exists db',
    productService.deleteProduct Sample.shop "3" = Ok db'
    /\ Spec.rows_with_id "3" db' = [].
Proof.
  eexists. split; [reflexivity |].
  apply (deleteProduct_success_removes Sample.shop "3" _ eq_refl).
Defined.

Lemma updateProduct_rows db i (u : Updates.t) :
  productService.updateProduct db i u
  = match Spec.rows_with_id i db with
    | [r0] =>
        Ok (Backend.mkDB
              (map (fun r => if (Product.id r =? i)%string
                             then Backend.patch (productService.update_payload u) r
                             else r)
                   (Backend.products db))
              (Backend.next_id db) (Backend.server_time db),
            Backend.patch (productService.update_payload u) r0)
    | _ => Err (("Couldn't update product " ++ i ++ ": ") ++ Notions.not_single)%string
    end.
Proof.
  unfold productService.updateProduct, Backend.run_update, Spec.rows_with_id.
  cbn [Backend.add Backend.select_from Backend.table Backend.conds app].
  simpl String.eqb.
  cbn [negb Backend.compile_all Backend.compile].
  change (Backend.text_column "id") with (Some Product.id).
  cbn [bind fst snd].
  rewrite (filter_ext (fun r => (Product.id r =? i)%string && true)
                      (fun r => (Product.id r =? i)%string)
                      (fun r => andb_true_r _)).
  rewrite (map_ext
             (fun r => if (Product.id r =? i)%string && true
                       then Backend.patch (productService.update_payload u) r
                       else r)
             (fun r => if (Product.id r =? i)%string
                       then Backend.patch (productService.update_payload u) r
                       else r)).
  2:{ intros r. rewrite andb_true_r. reflexivity. }
  destruct (filter _ (Backend.products db)) as [| r0 [| r1 l]]; reflexivity.
Qed.








(** ** Listing, whatever the filter *)

Lemma getProducts_eq db filters :
  productService.getProducts db filters
  = match Backend.compile_all
            (match filters with Some f => Spec.expected_filters f | None => [] end)
    with
    | Ok keep => Ok (Backend.sort_rows false (filter keep (Backend.products db)))
    | Err m => Err ("Couldn't fetch products: " ++ m)%string
    end.
Proof.
  unfold productService.getProducts. rewrite getProducts_query_shape.
  unfold Backend.run_select. cbn [Backend.table Backend.conds Backend.order].
  simpl String.eqb. cbn [negb].
  destruct (Backend.compile_all _); reflexivity.
Qed.

Lemma compile_all_app_inv a b k :
  Backend.compile_all (a ++ b) = Ok k ->
  exists ka kb, Backend.compile_all a = Ok ka
                /\ Backend.compile_all b = Ok kb
                /\ forall r, k r = ka r && kb r.
Proof.
  revert k. induction a as [| f a IH]; simpl; intros k H.
  - eexists _, k. repeat split. exact H.
  - destruct (Backend.compile f) as [c | m]; simpl in *; [| discriminate].
    destruct (Backend.compile_all (a ++ b)) as [k' | m] eqn:E; simpl in *;
      [| discriminate].
    injection H as <-.
    destruct (IH k' eq_refl) as (ka & kb & -> & Hb & Hk). simpl.
    eexists _, kb. split; [reflexivity |]. split; [exact Hb |].
    intros r. cbv beta. rewrite Hk. apply andb_assoc.
Qed.

Lemma compile_all_maybe_inv {A : Type} (o : option A) (mk : A -> Backend.Filter)
  (test : A -> Product -> bool) k :
  (forall a, Backend.compile (mk a) = Ok (test a)) ->
  Backend.compile_all (Spec.maybe (option_map mk o)) = Ok k ->
  forall r, k r = true -> Spec.when o (fun a => test a r) = true.
Proof.
  intros Hmk. destruct o as [a |]; simpl; [| reflexivity].
  rewrite (Hmk a). simpl. intros [= <-] r Hr.
  apply andb_true_iff in Hr. apply Hr.
Qed.

Lemma keep_within_bounds f keep :
  Backend.compile_all (Spec.expected_filters f) = Ok keep ->
  forall r, keep r = true -> Notions.within_bounds (Some f) r = true.
Proof.
  unfold Spec.expected_filters. intros H r Hr.
  apply compile_all_app_inv in H as (k1 & k' & E1 & H & Hk). rewrite Hk in Hr.
  apply andb_true_iff in Hr as [Hr1 Hr].
  apply compile_all_app_inv in H as (k2 & k'' & E2 & H & Hk'). rewrite Hk' in Hr.
  apply andb_true_iff in Hr as [Hr2 Hr].
  apply compile_all_app_inv in H as (k3 & k''' & E3 & H & Hk''). rewrite Hk'' in Hr.
  apply andb_true_iff in Hr as [Hr3 Hr].
  apply compile_all_app_inv in H as (k4 & k5 & E4 & _ & Hk'''). rewrite Hk''' in Hr.
  apply andb_true_iff in Hr as [Hr4 _].
  unfold Notions.within_bounds.
  rewrite (compile_all_maybe_inv _ (Backend.q_eq "category")
             (fun c x => (Product.category x =? c)%string) k1
             (fun _ => eq_refl) E1 r Hr1).
  rewrite (compile_all_maybe_inv _ (Backend.q_gte "price")
             (fun v x => JS.ge (Product.price x) v) k2
             (fun _ => eq_refl) E2 r Hr2).
  rewrite (compile_all_maybe_inv _ (Backend.q_lte "price")
             (fun v x => JS.le (Product.price x) v) k3
             (fun _ => eq_refl) E3 r Hr3).
  rewrite (compile_all_maybe_inv _ (Backend.q_gte "rating")
             (fun v x => JS.ge (Product.rating x) v) k4
             (fun _ => eq_refl) E4 r Hr4).
  reflexivity.
Qed.

Lemma filter_split {A : Type} (p : A -> bool) (l : list A) :
  Permutation (filter p l ++ filter (fun x => negb (p x)) l) l.
Proof.
  induction l as [| x l IH]; simpl.
  - apply perm_nil.
  - destruct (p x); simpl.
    + apply perm_skip, IH.
    + apply Permutation_sym, Permutation_cons_app, Permutation_sym, IH.
Qed.

(** Whatever the filter, special characters in the search text included, a
    [getProducts] that returns gives stored records only, none more often
    than it is stored, newest first, each with the category asked for (when
    one is, not empty) and within the price and rating bounds. *)
Theorem getProducts_returns_stored_rows_within_bounds :
  forall db filters rows,
    productService.getProducts db filters = Ok rows ->
    Spec.newest_first rows
    /\ (exists others, Permutation (rows ++ others) (Backend.products db))
    /\ Forall (fun r => In r (Backend.products db)
                        /\ Notions.within_bounds filters r = true) rows.
Proof.
  intros db filters rows. rewrite getProducts_eq.
  destruct (Backend.compile_all _) as [keep | m] eqn:E; [| discriminate].
  intros [= <-]. split; [apply sort_rows_newest_first |]. split.
  - exists (filter (fun x => negb (keep x)) (Backend.products db)).
    apply perm_trans with (filter keep (Backend.products db)
                           ++ filter (fun x => negb (keep x)) (Backend.products db)).
    + apply Permutation_app_tail, sort_rows_perm.
    + apply filter_split.
  - apply Forall_forall. intros r Hr.
    apply (Permutation_in _ (sort_rows_perm false _)) in Hr.
    apply filter_In in Hr as [Hin Hkeep]. split; [exact Hin |].
    destruct filters as [f |]; [| reflexivity].
    apply (keep_within_bounds f keep E r Hkeep).
Qed.

Lemma getProducts_returns_stored_rows_within_bounds_witness :
  exists rows,
    productService.getProducts Sample.shelf (Some (Sample.search "_")) = Ok rows
    /\ Spec.newest_first rows.
Proof.
  eexists. split; [reflexivity |].
  apply (getProducts_returns_stored_rows_within_bounds Sample.shelf
           (Some (Sample.search "_")) _ eq_refl).
Defined.


Lemma newest_first_head r l :
  Spec.newest_first l ->
  In r l ->
  (forall x, In x l -> x = r \/ Product.created_at x < Product.created_at r) ->
  exists rest, l = r :: rest.
Proof.
  unfold Spec.newest_first. intros Hsorted Hin Hnewest.
  destruct l as [| h t]; [contradiction |].
  destruct (Hnewest h (or_introl eq_refl)) as [-> | Hh].
  - exists t. reflexivity.
  - destruct Hin as [-> | Hin]; [exists t; reflexivity |].
    apply StronglySorted_inv in Hsorted as [_ Ht].
    rewrite Forall_forall in Ht. specialize (Ht r Hin). lia.
Qed.

(** A product created at a time later than every stored record comes first in
    the next listing when it passes the filter, the listing having besides it
    the records it had; when it does not pass, the listing has the records it
    had.  (The price and rating handed over are finite numbers, the search
    text has no special character.) *)
Theorem created_product_listed_first :
  forall now db (product : Draft.t) filters,
    Spec.id_free db ->
    Notions.all_older now db ->
    Spec.plain_search filters = true ->
    Notions.finite (Draft.price product) = true ->
    Notions.finite (Draft.rating product) = true ->
    exists db' r rows rows',
      productService.createProduct now db product = Ok (db', r)
      /\ productService.getProducts db filters = Ok rows
      /\ productService.getProducts db' filters = Ok rows'
      /\ Spec.newest_first rows'
      /\ (Spec.selected filters r = true ->
          Permutation rows' (r :: rows) /\ exists rest, rows' = r :: rest)
      /\ (Spec.selected filters r = false -> Permutation rows' rows).
Proof.
  intros now db product filters Hfree Hold Hplain _ _.
  eexists _, _, _, _.
  split; [apply (createProduct_stored now db product Hfree) |].
  split; [apply (getProducts_selects db filters Hplain) |].
  split; [apply (getProducts_selects _ filters Hplain) |].
  split; [apply sort_rows_newest_first |].
  cbn [Backend.products]. rewrite filter_app. cbn [filter].
  set (r := Product.mk _ _ _ _ _ _ _).
  set (old := filter (Spec.selected filters) (Backend.products db)).
  split.
  - intros Hsel. rewrite Hsel.
    assert (Hperm : Permutation (Backend.sort_rows false (old ++ [r]))
                                (r :: Backend.sort_rows false old)).
    { apply perm_trans with (old ++ [r]); [apply sort_rows_perm |].
      apply perm_trans with (r :: old).
      - apply Permutation_sym, Permutation_cons_append.
      - apply perm_skip, Permutation_sym, sort_rows_perm. }
    split; [exact Hperm |].
    apply newest_first_head.
    + apply sort_rows_newest_first.
    + apply (Permutation_in _ (Permutation_sym Hperm)). left. reflexivity.
    + intros x Hx. apply (Permutation_in _ (sort_rows_perm false _)) in Hx.
      apply in_app_or in Hx as [Hx | [<- | []]]; [right | left; reflexivity].
      apply filter_In in Hx as [Hx _].
      unfold Notions.all_older in Hold. rewrite Forall_forall in Hold.
      apply (Hold x Hx).
  - intros Hsel. rewrite Hsel, app_nil_r.
    apply perm_trans with old; [apply sort_rows_perm |].
    apply Permutation_sym, sort_rows_perm.
Qed.

Lemma created_product_listed_first_witness :
  exists db' r rest,
    productService.createProduct 5000 Sample.shop Sample.draft = Ok (db', r)
    /\ productService.getProducts db' None = Ok (r :: rest).
Proof.
  destruct (created_product_listed_first 5000 Sample.shop Sample.draft None
              eq_refl) as (db' & r & rows & rows' & H1 & _ & H3 & _ & Hsel & _).
  - unfold Notions.all_older. repeat constructor.
  - reflexivity.
  - reflexivity.
  - reflexivity.
  - destruct (Hsel eq_refl) as [_ [rest ->]].
    exists db', r, rest. split; [exact H1 | exact H3].
Defined.

Lemma starts_with_fold x y s :
  Spec.fold_case x = Spec.fold_case y ->
  Spec.starts_with x s = Spec.starts_with y s.
Proof.
  revert y s. induction x as [| c x IH]; intros [| d y] s H;
    try discriminate.
  - reflexivity.
  - simpl in H. injection H as Hc Hxy.
    destruct s as [| e s]; simpl; [reflexivity |].
    rewrite Hc, (IH y s Hxy). reflexivity.
Qed.

Lemma contains_fold x y s :
  Spec.fold_case x = Spec.fold_case y ->
  Spec.contains x s = Spec.contains y s.
Proof.
  intros H. induction s as [| e s IH]; simpl.
  - rewrite (starts_with_fold x y [] H). reflexivity.
  - rewrite (starts_with_fold x y (e :: s) H), IH. reflexivity.
Qed.

Lemma truthy_text s : JS.truthy s = negb (match Spec.text s with [] => true | _ => false end).
Proof. destruct s; reflexivity. Qed.

(** The search ignores the letter case of the text searched for: two search
    texts free of special characters that differ in letter case only give the
    same listing, the other filter fields being the same. *)
Theorem getProducts_search_ignores_query_case :
  forall db c lo hi rt x y,
    Spec.plain x = true ->
    Spec.plain y = true ->
    Spec.fold_case (Spec.text x) = Spec.fold_case (Spec.text y) ->
    productService.getProducts db (Some (ProductFilter.mk c lo hi rt (Some x)))
    = productService.getProducts db (Some (ProductFilter.mk c lo hi rt (Some y))).
Proof.
  intros db c lo hi rt x y Hx Hy H.
  rewrite (getProducts_selects db (Some (ProductFilter.mk c lo hi rt (Some x))) Hx).
  rewrite (getProducts_selects db (Some (ProductFilter.mk c lo hi rt (Some y))) Hy).
  f_equal. f_equal. apply filter_ext. intros r.
  unfold Spec.selected, Spec.satisfies.
  cbn [ProductFilter.category ProductFilter.minPrice ProductFilter.maxPrice
       ProductFilter.minRating ProductFilter.searchQuery].
  f_equal. unfold Spec.nonempty. rewrite !truthy_text.
  assert (Hnil : match Spec.text x with [] => true | _ => false end
                 = match Spec.text y with [] => true | _ => false end).
  { destruct (Spec.text x), (Spec.text y); try discriminate; reflexivity. }
  rewrite Hnil.
  destruct (negb _); [| reflexivity].
  unfold Spec.when, Spec.found.
  rewrite !(contains_fold _ _ _ H). reflexivity.
Qed.

Lemma getProducts_search_ignores_query_case_witness :
  productService.getProducts Sample.shelf (Some (Sample.search "AB"))
  = productService.getProducts Sample.shelf (Some (Sample.search "ab")).
Proof.
  apply (getProducts_search_ignores_query_case Sample.shelf None None None None
           "AB" "ab" eq_refl eq_refl eq_refl).
Defined.

(** ** The form *)

Lemma handleSubmit_failed_keeps_db now db product d :
  ProductForm.succeeded (ProductForm.handleSubmit now db product d) = false ->
  ProductForm.db_after (ProductForm.handleSubmit now db product d) = db
  /\ ProductForm.stored (ProductForm.handleSubmit now db product d) = None
  /\ ProductForm.validationError (ProductForm.handleSubmit now db product d)
     <> None.
Proof.
  unfold ProductForm.handleSubmit.
  destruct (ProductForm.checkFormValidity d);
    [intros _; repeat split; discriminate |].
  destruct product as [p |]; [destruct (JS.truthy (Product.id p)) |].
  - destruct (productService.updateProduct _ _ _) as [[db' r] | m];
      [discriminate | intros _; repeat split; discriminate].
  - destruct (productService.createProduct _ _ _) as [[db' r] | m];
      [discriminate | intros _; repeat split; discriminate].
  - destruct (productService.createProduct _ _ _) as [[db' r] | m];
      [discriminate | intros _; repeat split; discriminate].
Qed.

(** [handleSubmit] makes a service call exactly when validation passes, and
    then one call only; when validation fails, its message is the form's
    error, nothing is stored and the backend is left as it was.  A submission
    that does not succeed, for either reason, leaves the backend as it was
    and shows an error. *)
Theorem handleSubmit_calls_only_when_valid :
  forall now db product d,
    let submission := ProductForm.handleSubmit now db product d in
    (ProductForm.calls submission <> []
     <-> ProductForm.checkFormValidity d = None)
    /\ (List.length (ProductForm.calls submission) <= 1)%nat
    /\ (forall m, ProductForm.checkFormValidity d = Some m ->
          ProductForm.validationError submission = Some m
          /\ ProductForm.succeeded submission = false)
    /\ (ProductForm.succeeded submission = false ->
        ProductForm.db_after submission = db
        /\ ProductForm.stored submission = None
        /\ ProductForm.validationError submission <> None).
Proof.
  intros now db product d submission.
  assert (Hcalls : match ProductForm.checkFormValidity d with
                   | Some _ => ProductForm.calls submission = []
                   | None => exists c, ProductForm.calls submission = [c]
                   end).
  { destruct (ProductForm.checkFormValidity d) as [m |] eqn:E.
    - unfold submission. rewrite (handleSubmit_rejected now db product d m E).
      reflexivity.
    - destruct (handleSubmit_accepted now db product d E) as (c & Hc & _).
      exists c. exact Hc. }
  split; [| split; [| split]].
  - destruct (ProductForm.checkFormValidity d) as [m |].
    + rewrite Hcalls. split; [intros H; contradiction | discriminate].
    + destruct Hcalls as [c ->]. split; [reflexivity | discriminate].
  - destruct (ProductForm.checkFormValidity d) as [m |].
    + rewrite Hcalls. simpl. lia.
    + destruct Hcalls as [c ->]. simpl. lia.
  - intros m E. unfold submission.
    rewrite (handleSubmit_rejected now db product d m E). split; reflexivity.
  - apply handleSubmit_failed_keeps_db.
Qed.

Lemma handleSubmit_calls_only_when_valid_witness :
  ProductForm.validationError
    (ProductForm.handleSubmit 0 Sample.shop None
       (ProductForm.mkDetails "" "" "" "" ""))
  = Some ProductForm.name_message.
Proof.
  destruct (handleSubmit_calls_only_when_valid 0 Sample.shop None
              (ProductForm.mkDetails "" "" "" "" ""))
    as (_ & _ & H & _).
  destruct (H ProductForm.name_message eq_refl) as [Herr _]. exact Herr.
Defined.

Lemma createProduct_fields now db (product : Draft.t) db' r :
  productService.createProduct now db product = Ok (db', r) ->
  r = Product.mk (Backend.gen_id (Backend.next_id db))
                 (Draft.name product) (Draft.description product)
                 (Draft.category product) (Draft.price product)
                 (Draft.rating product) now.
Proof.
  unfold productService.createProduct, productService.insert_payload,
    Backend.run_insert.
  cbn [Row.id Row.name Row.description Row.category Row.price Row.rating
       Row.created_at].
  simpl String.eqb. cbn [negb].
  destruct (existsb _ _); simpl; [discriminate |].
  intros H. inversion H. reflexivity.
Qed.

Lemma updateProduct_fields db i d db' r :
  productService.updateProduct db i (ProductForm.as_updates d) = Ok (db', r) ->
  Product.name r = Draft.name d
  /\ Product.description r = Draft.description d
  /\ Product.category r = Draft.category d
  /\ Product.price r = Draft.price d
  /\ Product.rating r = Draft.rating d.
Proof.
  rewrite updateProduct_rows.
  destruct (Spec.rows_with_id i db) as [| r0 [| r1 l]]; try discriminate.
  intros H. inversion H. repeat split.
Qed.

Lemma stored_fields now db product d r :
  ProductForm.stored (ProductForm.handleSubmit now db product d) = Some r ->
  ProductForm.checkFormValidity d = None
  /\ Product.name r = ProductForm.name d
  /\ Product.description r = ProductForm.description d
  /\ Product.category r = ProductForm.category d
  /\ Product.price r = JS.Number (ProductForm.price d)
  /\ Product.rating r = JS.Number (ProductForm.rating d).
Proof.
  unfold ProductForm.handleSubmit.
  destruct (ProductForm.checkFormValidity d); [discriminate |].
  destruct product as [p |]; [destruct (JS.truthy (Product.id p)) |].
  - destruct (productService.updateProduct _ _ _) as [[db' r'] | m] eqn:E;
      [| discriminate].
    intros [= <-]. split; [reflexivity |].
    apply (updateProduct_fields _ _ _ _ _ E).
  - destruct (productService.createProduct _ _ _) as [[db' r'] | m] eqn:E;
      [| discriminate].
    intros [= <-]. rewrite (createProduct_fields _ _ _ _ _ E). repeat split.
  - destruct (productService.createProduct _ _ _) as [[db' r'] | m] eqn:E;
      [| discriminate].
    intros [= <-]. rewrite (createProduct_fields _ _ _ _ _ E). repeat split.
Qed.


(** Every record stored through the form from a price text that reads as a
    finite number meets the data model: its name and description are not
    empty once trimmed, its category is not empty, its price is a finite
    number that is at least 0 and its rating a finite number between 0 and
    5. *)
Theorem stored_record_well_formed :
  forall now db product d r,
    ProductForm.stored (ProductForm.handleSubmit now db product d) = Some r ->
    Notions.finite (JS.Number (ProductForm.price d)) = true ->
    Notions.well_formed r
    /\ Notions.finite (Product.price r) = true
    /\ Notions.finite (Product.rating r) = true.
Proof.
  intros now db product d r H Hfinite. unfold Notions.well_formed.
  destruct (stored_fields now db product d r H)
    as (Hvalid & -> & -> & -> & -> & ->).
  rewrite checkFormValidity_by_rules in Hvalid.
  apply first_failure_None in Hvalid. unfold Spec.rules in Hvalid.
  cbn [forallb fst] in Hvalid.
  repeat (apply andb_true_iff in Hvalid; destruct Hvalid as [? Hvalid]).
  unfold Spec.rule_name, Spec.rule_description, Spec.rule_category,
    Spec.rule_price, Spec.rule_rating in *.
  repeat match goal with
         | H : _ && _ = true |- _ => apply andb_true_iff in H; destruct H
         | H : negb _ = true |- _ => apply negb_true_iff in H
         end.
  repeat split; try assumption.
  destruct (JS.Number (ProductForm.rating d)) as [| q | |];
    try reflexivity; discriminate.
Qed.

Lemma stored_record_well_formed_witness :
  exists r,
    ProductForm.stored
      (ProductForm.handleSubmit 5 Sample.shop None Sample.details) = Some r
    /\ Notions.well_formed r.
Proof.
  eexists. split; [reflexivity |].
  apply (stored_record_well_formed 5 Sample.shop None Sample.details _
           eq_refl eq_refl).
Defined.

Lemma drop_space_blank l : forallb JS.is_space l = true -> JS.drop_space l = [].
Proof.
  induction l as [| c l IH]; simpl; intros H.
  - reflexivity.
  - apply andb_true_iff in H as [Hc Hl]. rewrite Hc. apply IH, Hl.
Qed.

Lemma Number_blank s : Notions.blank s = true -> JS.Number s = JS.Fin 0.
Proof.
  unfold Notions.blank, JS.Number, JS.trim_chars. intros H.
  rewrite (drop_space_blank _ H). reflexivity.
Qed.

(** A price or a rating left empty, or typed as white space only, is read as
    the number 0: such a form passes validation when its name, description
    and category do, and the product created has price 0 and rating 0. *)
Theorem blank_price_and_rating_stored_as_zero :
  forall now db n ds c p g,
    JS.truthy (JS.trim n) = true ->
    JS.truthy (JS.trim ds) = true ->
    JS.truthy c = true ->
    Notions.blank p = true ->
    Notions.blank g = true ->
    Spec.id_free db ->
    ProductForm.checkFormValidity (ProductForm.mkDetails n ds c p g) = None
    /\ exists r,
         ProductForm.stored
           (ProductForm.handleSubmit now db None (ProductForm.mkDetails n ds c p g))
         = Some r
         /\ Product.price r = JS.Fin 0
         /\ Product.rating r = JS.Fin 0.
Proof.
  intros now db n ds c p g Hn Hd Hc Hp Hg Hfree.
  assert (Hvalid : ProductForm.checkFormValidity (ProductForm.mkDetails n ds c p g)
                   = None).
  { rewrite checkFormValidity_by_rules.
    unfold Spec.rules, Spec.first_failure, Spec.rule_name, Spec.rule_description,
      Spec.rule_category, Spec.rule_price, Spec.rule_rating.
    cbn [ProductForm.name ProductForm.description ProductForm.category
         ProductForm.price ProductForm.rating].
    rewrite Hn, Hd, Hc, (Number_blank p Hp), (Number_blank g Hg). reflexivity. }
  split; [exact Hvalid |].
  unfold ProductForm.handleSubmit. rewrite Hvalid.
  rewrite (createProduct_stored now db _ Hfree).
  eexists. split; [reflexivity |].
  cbn [Product.price Product.rating ProductForm.updatedProduct Draft.price
       Draft.rating ProductForm.price ProductForm.rating].
  rewrite (Number_blank p Hp), (Number_blank g Hg). split; reflexivity.
Qed.

Lemma blank_price_and_rating_stored_as_zero_witness :
  ProductForm.checkFormValidity
    (ProductForm.mkDetails "Lamp" "warm light" "Home" "" "  ") = None.
Proof.
  destruct (blank_price_and_rating_stored_as_zero 0 Sample.shop
              "Lamp" "warm light" "Home" "" "  "
              eq_refl eq_refl eq_refl eq_refl eq_refl eq_refl) as [H _].
  exact H.
Defined.

(** Validation never looks at which category was chosen, only at whether one
    was: two forms that differ in their non-empty categories alone get the
    same verdict. *)
Theorem checkFormValidity_any_category :
  forall n ds c1 c2 p g,
    JS.truthy c1 = true ->
    JS.truthy c2 = true ->
    ProductForm.checkFormValidity (ProductForm.mkDetails n ds c1 p g)
    = ProductForm.checkFormValidity (ProductForm.mkDetails n ds c2 p g).
Proof.
  intros n ds c1 c2 p g H1 H2.
  unfold ProductForm.checkFormValidity.
  cbn [ProductForm.name ProductForm.description ProductForm.category
       ProductForm.price ProductForm.rating].
  rewrite H1, H2. reflexivity.
Qed.

Lemma checkFormValidity_any_category_witness :
  ProductForm.checkFormValidity
    (ProductForm.mkDetails "Lamp" "warm light" "Toys" "20" "4")
  = ProductForm.checkFormValidity
      (ProductForm.mkDetails "Lamp" "warm light" "Home" "20" "4").
Proof.
  apply (checkFormValidity_any_category "Lamp" "warm light" "Toys" "Home" "20" "4"
           eq_refl eq_refl).
Defined.

(** ** The list: bounds, fetches and edits *)

Lemma number_or_undefined_set v :
  Notions.bound_set (ProductList.number_or_undefined v).
Proof.
  unfold ProductList.number_or_undefined.
  destruct (JS.truthy_num (JS.Number v)) eqn:E; simpl; auto.
Qed.

Lemma edit_bounds e p f :
  ProductList.edit_patch e = Some p ->
  Notions.bounds_set f -> Notions.bounds_set (ProductList.merge f p).
Proof.
  unfold Notions.bounds_set. intros H (H1 & H2 & H3).
  destruct e; simpl in H; try discriminate; injection H as <-; simpl;
    repeat split; try assumption; apply number_or_undefined_set.
Qed.

Lemma refreshProductList_log s :
  ProductList.log (ProductList.refreshProductList s)
  = ProductList.log s
    ++ [call_getProducts (Some (ProductList.val (ProductList.filters s)))].
Proof.
  rewrite refreshProductList_eq.
  destruct (productService.getProducts _ _); reflexivity.
Qed.

Lemma submitForm_log d s :
  exists c,
    ProductList.fetches c = []
    /\ (ProductList.log (ProductList.submitForm d s) = ProductList.log s ++ c
        \/ ProductList.log (ProductList.submitForm d s)
           = (ProductList.log s ++ c)
             ++ [call_getProducts (Some (ProductList.val (ProductList.filters s)))]).
Proof.
  destruct (ProductForm.succeeded
              (ProductForm.handleSubmit (ProductList.now s) (ProductList.db s)
                 (ProductList.editingProduct s) d)) eqn:E.
  - destruct (handleSubmit_succeeded _ _ _ _ E) as (_ & c & r & Hc & Hf & _).
    exists [c]. split; [exact Hf |]. right.
    rewrite (submitForm_succeeded d s E), Hc.
    unfold ProductList.onClose.
    cbn [ProductList.set_editingProduct ProductList.set_showAddModal
         ProductList.log].
    rewrite refreshProductList_log. reflexivity.
  - exists (ProductForm.calls
              (ProductForm.handleSubmit (ProductList.now s) (ProductList.db s)
                 (ProductList.editingProduct s) d)).
    split.
    + unfold ProductForm.handleSubmit.
      destruct (ProductForm.checkFormValidity d); [reflexivity |].
      destruct (ProductList.editingProduct s) as [p |];
        [destruct (JS.truthy (Product.id p)) |];
        match goal with
        | |- context [match ?x with Ok _ => _ | Err _ => _ end] =>
            destruct x as [[? ?] | ?]
        end; reflexivity.
    + left. unfold ProductList.submitForm. rewrite E. reflexivity.
Qed.

(** What an event adds to the fetches on record: nothing, or one fetch with
    the filter committed by then. *)
Lemma step_fetches e s :
  ProductList.fetches (ProductList.log (ProductList.step e s))
  = ProductList.fetches (ProductList.log s)
  \/ (Notions.refreshing e = 1%nat
      /\ ProductList.fetches (ProductList.log (ProductList.step e s))
         = ProductList.fetches (ProductList.log s)
           ++ [Some (ProductList.val
                       (ProductList.filters (ProductList.step e s)))]).
Proof.
  destruct e; cbn [ProductList.step ProductList.edit_patch Notions.refreshing];
    try (left; reflexivity).
  - unfold ProductList.applyFilters.
    destruct (_ =? _)%nat; [left; reflexivity | right].
    split; [reflexivity |].
    destruct (refreshProductList_frame
                (ProductList.set_filters (ProductList.tempFilters s) s))
      as (-> & _).
    rewrite refreshProductList_log, fetches_app. reflexivity.
  - left. destruct userConfirmed; [| reflexivity].
    rewrite handleProductRemoval_eq. cbn [ProductList.log].
    rewrite fetches_app. cbn [ProductList.fetches flat_map].
    apply app_nil_r.
  - destruct (submitForm_frame productDetails s) as (-> & _).
    destruct (submitForm_log productDetails s) as (c & Hc & [-> | ->]).
    + left. rewrite fetches_app, Hc. apply app_nil_r.
    + right. split; [reflexivity |].
      rewrite !fetches_app, Hc, app_nil_r. reflexivity.
Qed.

(** No request per keystroke: over any sequence of events, the number of
    [getProducts] calls grows by at most the number of apply actions and
    form submissions in it; edits of the filter controls, deletions and the
    opening and closing of the form add none. *)
Theorem fetches_bounded_by_refreshing_events :
  forall es s,
    (List.length (ProductList.fetches (ProductList.log (ProductList.run es s)))
     <= List.length (ProductList.fetches (ProductList.log s))
        + Notions.refreshes es)%nat.
Proof.
  unfold ProductList.run.
  induction es as [| e es IH]; intros s; simpl.
  - lia.
  - specialize (IH (ProductList.step e s)).
    destruct (step_fetches e s) as [H | [He H]]; rewrite H in IH.
    + lia.
    + rewrite length_app in IH. simpl in IH. lia.
Qed.

Lemma step_bounds e s :
  Notions.bounds_set (ProductList.val (ProductList.filters s)) ->
  Notions.bounds_set (ProductList.val (ProductList.tempFilters s)) ->
  Notions.bounds_set (ProductList.val (ProductList.filters (ProductList.step e s)))
  /\ Notions.bounds_set
       (ProductList.val (ProductList.tempFilters (ProductList.step e s))).
Proof.
  intros Hf Ht.
  assert (Edit : forall p, ProductList.edit_patch e = Some p ->
                           ProductList.step e s = ProductList.handleFilter p s).
  { intros p H. destruct e; simpl in H; try discriminate;
      injection H as <-; reflexivity. }
  destruct (ProductList.edit_patch e) as [p |] eqn:E.
  - rewrite (Edit p eq_refl). simpl. split; [exact Hf |].
    apply (edit_bounds e p _ E Ht).
  - destruct e; simpl in E; try discriminate; cbn [ProductList.step];
      try (split; assumption).
    + unfold ProductList.applyFilters.
      destruct (_ =? _)%nat; [split; assumption |].
      destruct (refreshProductList_frame
                  (ProductList.set_filters (ProductList.tempFilters s) s))
        as (-> & -> & _).
      split; assumption.
    + destruct (handleProductRemoval_frame productId userConfirmed s)
        as (-> & -> & _).
      split; assumption.
    + destruct (submitForm_frame productDetails s) as (-> & -> & _).
      split; assumption.
Qed.

(** A numeric bound of 0 never leaves the list: in every state the component
    can reach, the price and rating bounds of the draft and of the committed
    filter are absent or neither 0 nor NaN, and so were those of every
    [getProducts] call made. *)
Theorem list_never_commits_zero_bound :
  forall s,
    Spec.reachable s ->
    Notions.bounds_set (ProductList.val (ProductList.filters s))
    /\ Notions.bounds_set (ProductList.val (ProductList.tempFilters s))
    /\ Notions.fetched_with_bounds_set (ProductList.log s).
Proof.
  intros s (db & now & es & ->).
  unfold ProductList.run. rewrite <- fold_left_rev_right.
  induction (rev es) as [| e l IH]; cbn [fold_right].
  - unfold ProductList.mount, Notions.fetched_with_bounds_set.
    rewrite refreshProductList_log.
    destruct (refreshProductList_frame (ProductList.initial db now))
      as (-> & -> & _).
    simpl. repeat split; auto. constructor; [| constructor].
    repeat split.
  - set (prev := fold_right _ _ l) in *. cbv beta.
    destruct IH as (Hf & Ht & Hl).
    destruct (step_bounds e _ Hf Ht) as [Hf' Ht'].
    split; [exact Hf' |]. split; [exact Ht' |].
    unfold Notions.fetched_with_bounds_set in *.
    destruct (step_fetches e prev) as [-> | [_ ->]].
    + exact Hl.
    + apply Forall_app. split; [exact Hl |].
      constructor; [exact Hf' | constructor].
Qed.

Lemma list_never_commits_zero_bound_witness :
  ProductFilter.minPrice
    (ProductList.val
       (ProductList.filters
          (ProductList.run [ProductList.MinPriceChanged "0"; ProductList.ApplyClicked]
             (ProductList.mount Sample.shop 0))))
  = None.
Proof.
  destruct (list_never_commits_zero_bound
              (ProductList.run
                 [ProductList.MinPriceChanged "0"; ProductList.ApplyClicked]
                 (ProductList.mount Sample.shop 0)))
    as ((H & _) & _).
  - exists Sample.shop, 0, [ProductList.MinPriceChanged "0"; ProductList.ApplyClicked].
    reflexivity.
  - destruct (ProductFilter.minPrice _) as [v |] eqn:E; [| reflexivity].
    vm_compute in E. discriminate.
Defined.

(** The draft keeps, for each control, the last value typed into it, and the
    order in which different controls are edited does not matter. *)
Theorem draft_edits_compose :
  forall e1 e2 k1 k2 s,
    Notions.control e1 = Some k1 ->
    Notions.control e2 = Some k2 ->
    (k1 = k2 -> Notions.draft_after [e1; e2] s = Notions.draft_after [e2] s)
    /\ (k1 <> k2 ->
        Notions.draft_after [e1; e2] s = Notions.draft_after [e2; e1] s).
Proof.
  intros e1 e2 k1 k2 s H1 H2.
  destruct e1; simpl in H1; try discriminate; injection H1 as <-;
    destruct e2; simpl in H2; try discriminate; injection H2 as <-;
    (split; intros H; try discriminate; try (exfalso; apply H; reflexivity));
    unfold Notions.draft_after, ProductList.run; simpl;
    destruct (ProductList.val (ProductList.tempFilters s)); reflexivity.
Qed.

Lemma draft_edits_compose_witness :
  Notions.draft_after
    [ProductList.SearchChanged "a"; ProductList.CategoryChanged "Books"]
    (ProductList.mount Sample.shop 0)
  = Notions.draft_after
      [ProductList.CategoryChanged "Books"; ProductList.SearchChanged "a"]
      (ProductList.mount Sample.shop 0).
Proof.
  destruct (draft_edits_compose (ProductList.SearchChanged "a")
              (ProductList.CategoryChanged "Books") _ _
              (ProductList.mount Sample.shop 0) eq_refl eq_refl) as [_ H].
  apply H. discriminate.
Defined.


(** ** The list shown and the backend *)

Lemma filter_perm {A : Type} (p : A -> bool) (l l' : list A) :
  Permutation l l' -> Permutation (filter p l) (filter p l').
Proof.
  induction 1 as [| x l l' H IH | x y l | l l' l'' H1 IH1 H2 IH2]; simpl.
  - apply perm_nil.
  - destruct (p x); [apply perm_skip |]; exact IH.
  - destruct (p x), (p y); try apply Permutation_refl. apply perm_swap.
  - apply perm_trans with (filter p l'); assumption.
Qed.

Lemma filter_newest_first p l :
  Spec.newest_first l -> Spec.newest_first (filter p l).
Proof.
  unfold Spec.newest_first. induction 1 as [| x l Hl IH Hx]; simpl.
  - constructor.
  - destruct (p x); [| exact IH].
    constructor; [exact IH |].
    rewrite Forall_forall in *. intros y Hy.
    apply filter_In in Hy as [Hy _]. apply (Hx y Hy).
Qed.

Lemma refresh_shows_listing s rows :
  productService.getProducts (ProductList.db s)
    (Some (ProductList.val (ProductList.filters s))) = Ok rows ->
  Notions.shows_listing (ProductList.refreshProductList s).
Proof.
  intros H. unfold Notions.shows_listing.
  rewrite refreshProductList_eq, H.
  cbn [ProductList.db ProductList.filters ProductList.products].
  exists rows. split; [exact H |]. split; [apply Permutation_refl |].
  rewrite getProducts_eq in H.
  destruct (Backend.compile_all _) as [keep | m]; [| discriminate].
  injection H as <-. apply sort_rows_newest_first.
Qed.

Lemma handleSubmit_failed_db now db product d :
  ProductForm.succeeded (ProductForm.handleSubmit now db product d) = false ->
  ProductForm.db_after (ProductForm.handleSubmit now db product d) = db.
Proof. intros H. apply (handleSubmit_failed_keeps_db now db product d H). Qed.

(** The list shown keeps up with the backend, the backend changing through
    this component only.  If the list shown has the records [getProducts]
    returns for the committed filter, newest first, it still has after any
    event, an apply action being required to have its fetch succeed and a
    deletion to succeed.  In particular the list patched in memory after a
    deletion has the records a new fetch would return. *)
Theorem shown_list_keeps_up :
  forall e s,
    Notions.shows_listing s ->
    (e = ProductList.ApplyClicked ->
     exists rows,
       productService.getProducts (ProductList.db s)
         (Some (ProductList.val (ProductList.tempFilters s))) = Ok rows) ->
    (forall productId,
        e = ProductList.DeleteClicked productId true ->
        exists db', productService.deleteProduct (ProductList.db s) productId
                    = Ok db') ->
    Notions.shows_listing (ProductList.step e s).
Proof.
  intros e s Hs Happly _.
  destruct e; cbn [ProductList.step ProductList.edit_patch];
    try exact Hs.
  - (* apply *)
    unfold ProductList.applyFilters.
    destruct (_ =? _)%nat; [exact Hs |].
    destruct (Happly eq_refl) as [rows H].
    apply (refresh_shows_listing
             (ProductList.set_filters (ProductList.tempFilters s) s) rows H).
  - (* delete *)
    destruct userConfirmed; [| exact Hs].
    destruct Hs as (rows & Hrows & Hperm & Hsorted).
    unfold Notions.shows_listing. rewrite handleProductRemoval_eq.
    cbn [ProductList.db ProductList.filters ProductList.products].
    rewrite getProducts_eq in *. cbn [Backend.products].
    destruct (Backend.compile_all _) as [keep | m]; [| discriminate].
    injection Hrows as <-.
    eexists. split; [reflexivity |]. split.
    + unfold Spec.removed.
      apply perm_trans
        with (filter (fun product => negb (Product.id product =? productId)%string)
                     (filter keep (Backend.products (ProductList.db s)))).
      * apply perm_trans
          with (filter (fun product => negb (Product.id product =? productId)%string)
                       (Backend.sort_rows false
                          (filter keep (Backend.products (ProductList.db s))))).
        -- apply filter_perm, Hperm.
        -- apply filter_perm, sort_rows_perm.
      * rewrite filter_swap.
        rewrite (filter_ext
                   (fun product => negb (Product.id product =? productId)%string)
                   (fun r => negb ((Product.id r =? productId)%string && true))).
        -- apply Permutation_sym, sort_rows_perm.
        -- intros r. rewrite andb_true_r. reflexivity.
    + apply filter_newest_first, Hsorted.
  - (* submission *)
    destruct (ProductForm.succeeded
                (ProductForm.handleSubmit (ProductList.now s) (ProductList.db s)
                   (ProductList.editingProduct s) productDetails)) eqn:E.
    + rewrite (submitForm_succeeded productDetails s E).
      destruct Hs as (rows & Hrows & _).
      match goal with
      | |- context [ProductList.refreshProductList ?x] => set (s0 := x)
      end.
      assert (H : exists rows',
                 productService.getProducts (ProductList.db s0)
                   (Some (ProductList.val (ProductList.filters s0))) = Ok rows').
      { unfold s0. cbn [ProductList.set_db ProductList.set_log ProductList.db
                        ProductList.filters].
        rewrite getProducts_eq in *.
        destruct (Backend.compile_all _) as [keep | m]; [| discriminate].
        eexists. reflexivity. }
      destruct H as [rows' H].
      destruct (refresh_shows_listing s0 rows' H) as (l & Hl & Hp & Hn).
      exists l. unfold ProductList.onClose.
      cbn [ProductList.set_editingProduct ProductList.set_showAddModal
           ProductList.db ProductList.filters ProductList.products].
      split; [exact Hl |]. split; [exact Hp | exact Hn].
    + unfold ProductList.submitForm. rewrite E.
      unfold Notions.shows_listing.
      cbn [ProductList.set_db ProductList.set_log ProductList.db
           ProductList.filters ProductList.products].
      rewrite (handleSubmit_failed_db _ _ _ _ E). exact Hs.
Qed.

Lemma shown_list_keeps_up_witness :
  Notions.shows_listing
    (ProductList.step (ProductList.DeleteClicked "3" true)
       (ProductList.mount Sample.shop 0)).
Proof.
  apply (shown_list_keeps_up (ProductList.DeleteClicked "3" true)
           (ProductList.mount Sample.shop 0)).
  - apply (refresh_shows_listing (ProductList.initial Sample.shop 0)
             (Backend.sort_rows false (Backend.products Sample.shop))).
    reflexivity.
  - intros H. discriminate.
  - intros productId H. eexists. reflexivity.
Defined.

(** ** Signing in *)

Lemma includes_char s c :
  Login.includes s (String c EmptyString) = true
  <-> In c (list_ascii_of_string s).
Proof.
  unfold Login.includes. simpl list_ascii_of_string at 2.
  induction (list_ascii_of_string s) as [| d l IH]; simpl.
  - split; [discriminate | contradiction].
  - rewrite orb_true_iff, IH, andb_true_r, Ascii.eqb_eq. split.
    + intros [-> | H]; auto.
    + intros [-> | H]; auto.
Qed.

(** [handleSubmit] of the login form attempts to sign in exactly when the
    e-mail has an [@] in it, and then once, with the e-mail and password as
    typed; it navigates, to [/products], exactly when that attempt resolves.
    An e-mail without [@] gets the validation message and leaves the loading
    flag alone.  Whatever [signIn] throws, the error shown is one of the
    component's own messages and the texts typed are kept. *)
Theorem login_handleSubmit_outcomes :
  forall (signIn : Login.SignIn) (s : Login.State),
    let o := Login.handleSubmit signIn s in
    let has_at := In "@"%char (list_ascii_of_string (Login.email s)) in
    (Login.attempts o = [(Login.email s, Login.password s)] <-> has_at)
    /\ (~ has_at ->
        Login.attempts o = []
        /\ Login.navigated o = None
        /\ Login.error (Login.after o) = Some "Please enter a valid email"
        /\ Login.loading (Login.after o) = Login.loading s)
    /\ (Login.navigated o = Some "/products"
        <-> has_at /\ signIn (Login.email s) (Login.password s) = None)
    /\ (Login.navigated o = None <-> Login.error (Login.after o) <> None)
    /\ (has_at -> Login.loading (Login.after o) = false)
    /\ In (Login.error (Login.after o))
          [ None; Some "Please enter a valid email";
            Some "Invalid email or password";
            Some "Something went wrong. Try again later.";
            Some "Login failed for unknown reason" ]
    /\ Login.email (Login.after o) = Login.email s
    /\ Login.password (Login.after o) = Login.password s.
Proof.
  intros signIn s o has_at.
  pose proof (includes_char (Login.email s) "@") as Hat. fold has_at in Hat.
  unfold o, Login.handleSubmit.
  destruct (Login.includes (Login.email s) "@") eqn:E; cbn [negb].
  - assert (H : has_at) by (apply Hat; reflexivity).
    destruct (signIn (Login.email s) (Login.password s)) as [[m |] |];
      [destruct (Login.includes m "auth/invalid-credential") | |];
      cbn [Login.attempts Login.navigated Login.after Login.error Login.loading
           Login.email Login.password];
      repeat split; try tauto; try discriminate; try congruence;
      try (intros [_ K]; discriminate); try (intros K; exfalso; apply K; reflexivity);
      simpl; tauto.
  - assert (H : ~ has_at).
    { intros K. apply Hat in K. discriminate. }
    cbn [Login.attempts Login.navigated Login.after Login.error Login.loading
         Login.email Login.password].
    repeat split; try tauto; try discriminate; try congruence;
      simpl; tauto.
Qed.

Lemma login_handleSubmit_outcomes_witness :
  Login.error
    (Login.after
       (Login.handleSubmit (fun _ _ => None)
          (Login.mkState "someone" "secret" None false)))
  = Some "Please enter a valid email".
Proof.
  destruct (login_handleSubmit_outcomes (fun _ _ => None)
              (Login.mkState "someone" "secret" None false))
    as (_ & H & _).
  destruct H as (_ & _ & Herr & _).
  - simpl. intros K.
    repeat (destruct K as [K | K]; [discriminate |]). exact K.
  - exact Herr.
Defined.

(** ** Creation and the other operations together *)






(** ** From the form to the list *)

(** A product added through the form, its price reading as a finite number,
    is stored with the name, description and category as typed, the price
    and rating as [Number] reads them, the generated identifier and the
    browser's time; the refreshed list shows it exactly when it passes the
    committed filter; the form is closed and no error is shown. *)
Theorem added_product_shown_when_selected :
  forall s d,
    ProductList.editingProduct s = None ->
    Spec.id_free (ProductList.db s) ->
    Spec.plain_search (Some (ProductList.val (ProductList.filters s))) = true ->
    ProductForm.checkFormValidity d = None ->
    Notions.finite (JS.Number (ProductForm.price d)) = true ->
    let s' := ProductList.step (ProductList.FormSubmitted d) s in
    let r :=
      Product.mk (Backend.gen_id (Backend.next_id (ProductList.db s)))
                 (ProductForm.name d) (ProductForm.description d)
                 (ProductForm.category d)
                 (JS.Number (ProductForm.price d))
                 (JS.Number (ProductForm.rating d))
                 (ProductList.now s) in
    Backend.products (ProductList.db s')
    = Backend.products (ProductList.db s) ++ [r]
    /\ (In r (ProductList.products s')
        <-> Spec.selected (Some (ProductList.val (ProductList.filters s))) r
            = true)
    /\ (forall x, In x (ProductList.products s') ->
                  x = r \/ In x (Backend.products (ProductList.db s)))
    /\ ProductList.error s' = None
    /\ ProductList.showAddModal s' = false
    /\ ProductList.editingProduct s' = None.
Proof.
  intros s d Hadd Hfree Hplain Hvalid _ s' r.
  assert (Hsub : ProductForm.handleSubmit (ProductList.now s) (ProductList.db s)
                   (ProductList.editingProduct s) d
                 = ProductForm.mkSubmission None
                     [call_createProduct (ProductForm.updatedProduct d)]
                     (Backend.mkDB
                        (Backend.products (ProductList.db s) ++ [r])
                        (S (Backend.next_id (ProductList.db s)))
                        (Backend.server_time (ProductList.db s)))
                     (Some r) true).
  { rewrite Hadd. unfold ProductForm.handleSubmit. rewrite Hvalid.
    rewrite (createProduct_stored _ _ _ Hfree). reflexivity. }
  unfold s'. cbn [ProductList.step].
  rewrite submitForm_succeeded by (rewrite Hsub; reflexivity).
  rewrite Hsub. cbn [ProductForm.db_after ProductForm.calls].
  rewrite refreshProductList_eq.
  cbn [ProductList.set_db ProductList.set_log ProductList.db ProductList.filters].
  rewrite (getProducts_selects _ _ Hplain).
  unfold ProductList.onClose.
  cbn [ProductList.set_editingProduct ProductList.set_showAddModal
       ProductList.db ProductList.products ProductList.error
       ProductList.showAddModal ProductList.editingProduct Backend.products].
  split; [reflexivity |].
  split; [| split; [| repeat split]].
  - split.
    + intros Hin. apply (Permutation_in _ (sort_rows_perm false _)) in Hin.
      apply filter_In in Hin. apply Hin.
    + intros Hsel.
      apply (Permutation_in _ (Permutation_sym (sort_rows_perm false _))).
      apply filter_In. split; [| exact Hsel].
      apply in_or_app. right. left. reflexivity.
  - intros x Hin. apply (Permutation_in _ (sort_rows_perm false _)) in Hin.
    apply filter_In in Hin as [Hin _].
    apply in_app_or in Hin as [Hin | [<- | []]]; [right; exact Hin | left; reflexivity].
Qed.

Lemma added_product_shown_when_selected_witness :
  exists r,
    In r (ProductList.products
            (ProductList.step (ProductList.FormSubmitted Sample.details)
               (ProductList.mount Sample.shop 0)))
    /\ Product.name r = "  Lamp "
    /\ Product.price r = Sample.int 20.
Proof.
  destruct (added_product_shown_when_selected
              (ProductList.mount Sample.shop 0) Sample.details
              eq_refl eq_refl eq_refl eq_refl eq_refl)
    as (_ & Hshown & _).
  eexists. split; [apply Hshown; reflexivity |].
  split; [reflexivity | vm_compute; reflexivity].
Defined.
